(** * Order lifecycle, derived documents and numbering of the furniture
      trading application: a shallow embedding of the route handlers.

    The handlers are written in TypeScript on top of the Prisma client.  A
    request body is parsed JSON, so its fields are JavaScript values; a JS
    [number] is an IEEE-754 binary64 float, which is what Rocq's primitive
    floats are.  Tables are lists of rows, and every handler is a function
    from the store to a response and a new store. *)

From Stdlib Require Import Floats ZArith List String Ascii Bool Lia.
From Stdlib Require Import QArith Qround DecimalString DecimalPos Sorted.
Import ListNotations.

Set Warnings "-inexact-float".

Local Open Scope string_scope.
Local Open Scope Z_scope.

(** ** JavaScript values *)

Module JS.

(** The values a parsed JSON body or a Prisma row can hold.  [decimal] is a
    Prisma [Decimal] object (an object with a [toNumber] method); [object]
    is any other object. *)
Inductive value : Type :=
| undefined
| null
| boolean (b : bool)
| number (f : float)
| str (s : string)
| decimal (f : float)
| object.

Definition is_nan (f : float) : bool := negb (PrimFloat.eqb f f).

(** ToBoolean: [undefined], [null], [false], [+0], [-0], [NaN] and the
    empty string are falsy, everything else (objects included) is truthy. *)
Definition truthy (v : value) : bool :=
  match v with
  | undefined | null => false
  | boolean b => b
  | number f => negb (PrimFloat.eqb f 0 || is_nan f)
  | str s => negb (String.eqb s "")
  | decimal _ | object => true
  end.

(** [a || b] *)
Definition or (a b : value) : value := if truthy a then a else b.

(** [a !== undefined] *)
Definition isDefined (v : value) : bool :=
  match v with undefined => false | _ => true end.

End JS.

(** ** Strings: the operations used to build document numbers *)

Module Str.

Open Scope nat_scope.

(** [s.padStart(n, c)] for a one-character filler. *)
Definition padStart (n : nat) (c : ascii) (s : string) : string :=
  String.concat "" (repeat (String c "") (n - String.length s)) ++ s.

(** [s.replace(pat, rep)] with a string pattern: the first occurrence only. *)
Fixpoint replace (pat rep s : string) : string :=
  if String.prefix pat s
  then rep ++ substring (String.length pat) (String.length s - String.length pat) s
  else match s with
       | EmptyString => EmptyString
       | String c s' => String c (replace pat rep s')
       end.

Definition upper (c : ascii) : ascii :=
  let n := nat_of_ascii c in
  if (97 <=? n) && (n <=? 122) then ascii_of_nat (n - 32) else c.

(** [s.toUpperCase()] on ASCII. *)
Fixpoint toUpperCase (s : string) : string :=
  match s with
  | EmptyString => EmptyString
  | String c s' => String (upper c) (toUpperCase s')
  end.

(** [s.slice(0, n)] *)
Definition slice0 (n : nat) (s : string) : string := substring 0 n s.

(** [String(n)] / [n.toString()] for an integral number. *)
Definition ofZ (n : Z) : string := NilZero.string_of_int (Z.to_int n).

Definition digit (c : ascii) : option Z :=
  let n := nat_of_ascii c in
  if (48 <=? n) && (n <=? 57) then Some (Z.of_nat (n - 48)) else None.

Definition isSpace (c : ascii) : bool :=
  let n := nat_of_ascii c in
  (n =? 32) || ((9 <=? n) && (n <=? 13)).

Fixpoint trimStart (s : string) : string :=
  match s with
  | String c s' => if isSpace c then trimStart s' else s
  | EmptyString => EmptyString
  end.

(** The longest prefix of decimal digits, as a number; [None] when there
    is no digit at all. *)
Fixpoint digits (acc : option Z) (s : string) : option Z :=
  match s with
  | String c s' =>
      match digit c with
      | Some d => digits (Some (10 * match acc with Some a => a | None => 0 end + d)%Z) s'
      | None => acc
      end
  | EmptyString => acc
  end.

Definition hexDigit (c : ascii) : option Z :=
  let n := nat_of_ascii c in
  if (48 <=? n) && (n <=? 57) then Some (Z.of_nat (n - 48))
  else if (97 <=? n) && (n <=? 102) then Some (Z.of_nat (n - 87))
  else if (65 <=? n) && (n <=? 70) then Some (Z.of_nat (n - 55))
  else None.

Fixpoint hexDigits (acc : option Z) (s : string) : option Z :=
  match s with
  | String c s' =>
      match hexDigit c with
      | Some d => hexDigits (Some (16 * match acc with Some a => a | None => 0 end + d)%Z) s'
      | None => acc
      end
  | EmptyString => acc
  end.

(** The digits after the sign: radix 16 after a [0x] or [0X] prefix,
    radix 10 otherwise. *)
Definition unsignedInt (s : string) : option Z :=
  match s with
  | String "0" (String "x" s') | String "0" (String "X" s') => hexDigits None s'
  | _ => digits None s
  end.

(** [parseInt(s)] without a radix: leading white space, an optional sign,
    then digits up to the first other character.  [None] is [NaN].  The
    result is the exact integer; a JS number holds it exactly below 2^53. *)
Definition parseInt (s : string) : option Z :=
  match trimStart s with
  | String "-" s' => option_map Z.opp (unsignedInt s')
  | String "+" s' => unsignedInt s'
  | s' => unsignedInt s'
  end.

(** Code-unit order of strings, the order of [orderBy] on a text column. *)
Definition ltb (a b : string) : bool := String.ltb a b.

End Str.


(** ** The collaborators that are not part of the sources *)

(** A line of a request body and a line row have the same fields; every
    field is the JS value the handler read or wrote.  The foreign key to the
    owning order or document is the row the line is stored in. *)
Module Line.
Record t : Type := mk {
  productId : JS.value;
  description : JS.value;
  quantity : JS.value;
  unitPrice : JS.value;
  taxRate : JS.value;
  taxAmount : JS.value;
  lineTotal : JS.value;
  analyticalAccountId : JS.value
}.
End Line.

Module User.
Record t : Type := mk {
  role : string;
  contactId : option string
}.
End User.

(** What the handlers import from outside the sources: two ECMAScript
    builtins on strings, [isAdmin] of [lib/auth] and
    [applyAutoAnalyticalToLines] of [lib/auto-analytical]. *)
Record Runtime : Type := {
  parseFloat : string -> float;
  StringToNumber : string -> float;
  isAdmin : User.t -> bool;
  applyAutoAnalyticalToLines : list Line.t -> list Line.t
}.

(** What one request sees of the outside world: the clock ([Date.now()], in
    milliseconds), the identifier the database gives a new row, and whether
    the database refuses the insertion the request attempts. *)
Record Env : Type := {
  now : Z;
  newId : string;
  createFails : bool
}.

(** [parseDecimal] of [lib/utils]. *)
Definition parseDecimal (rt : Runtime) (value : JS.value) : float :=
  match value with
  | JS.number f => f
  | JS.str s => parseFloat rt s
  | JS.decimal f => f
  | _ => 0%float
  end.

(** ToNumber.  A JSON body holds no [Decimal] object; one read from a row
    converts to the number it prints. *)
Definition ToNumber (rt : Runtime) (v : JS.value) : float :=
  match v with
  | JS.undefined => nan
  | JS.null => 0%float
  | JS.boolean b => if b then 1%float else 0%float
  | JS.number f => f
  | JS.str s => StringToNumber rt s
  | JS.decimal f => f
  | JS.object => nan
  end.

(** [a < b]: two strings are compared as strings, anything else as numbers,
    and a comparison with [NaN] is false. *)
Definition lessThan (rt : Runtime) (a b : JS.value) : bool :=
  match a, b with
  | JS.str x, JS.str y => Str.ltb x y
  | _, _ => PrimFloat.ltb (ToNumber rt a) (ToNumber rt b)
  end.

(** ** Rows and tables *)

Module Sequence.
Record t : Type := mk {
  name : string;
  prefix : string;
  nextNumber : Z;
  padding : Z
}.
End Sequence.

(** A sales order or a purchase order.  [partyId] is [customerId] or
    [vendorId]; dates are milliseconds since the epoch. *)
Module Order.
Record t : Type := mk {
  id : string;
  orderNumber : string;
  partyId : string;
  orderDate : Z;
  expectedDate : option Z;
  status : string;
  subtotal : float;
  taxAmount : float;
  totalAmount : float;
  notes : JS.value;
  lines : list Line.t
}.
End Order.

(** An invoice or a vendor bill.  [number] is [invoiceNumber] or
    [billNumber], [partyId] is [customerId] or [vendorId], [sourceOrderId] is
    [salesOrderId] or [purchaseOrderId], [date] is [invoiceDate] or
    [billDate]. *)
Module Doc.
Record t : Type := mk {
  number : string;
  partyId : string;
  sourceOrderId : option string;
  date : Z;
  dueDate : Z;
  status : string;
  subtotal : float;
  taxAmount : float;
  totalAmount : float;
  paidAmount : float;
  notes : string;
  lines : list Line.t
}.
End Doc.

Module Product.
Record t : Type := mk {
  id : string;
  code : string;
  name : JS.value;
  purchasePrice : JS.value;
  salePrice : JS.value
}.
End Product.

Record Store : Type := {
  sequences : list Sequence.t;
  salesOrders : list Order.t;
  invoices : list Doc.t;
  purchaseOrders : list Order.t;
  vendorBills : list Doc.t;
  products : list Product.t
}.

Definition emptyStore : Store :=
  {| sequences := []; salesOrders := []; invoices := [];
     purchaseOrders := []; vendorBills := []; products := [] |}.

Definition withSequences (st : Store) (x : list Sequence.t) : Store :=
  {| sequences := x; salesOrders := salesOrders st; invoices := invoices st;
     purchaseOrders := purchaseOrders st; vendorBills := vendorBills st;
     products := products st |}.
Definition withSalesOrders (st : Store) (x : list Order.t) : Store :=
  {| sequences := sequences st; salesOrders := x; invoices := invoices st;
     purchaseOrders := purchaseOrders st; vendorBills := vendorBills st;
     products := products st |}.
Definition withInvoices (st : Store) (x : list Doc.t) : Store :=
  {| sequences := sequences st; salesOrders := salesOrders st; invoices := x;
     purchaseOrders := purchaseOrders st; vendorBills := vendorBills st;
     products := products st |}.
Definition withPurchaseOrders (st : Store) (x : list Order.t) : Store :=
  {| sequences := sequences st; salesOrders := salesOrders st; invoices := invoices st;
     purchaseOrders := x; vendorBills := vendorBills st;
     products := products st |}.
Definition withVendorBills (st : Store) (x : list Doc.t) : Store :=
  {| sequences := sequences st; salesOrders := salesOrders st; invoices := invoices st;
     purchaseOrders := purchaseOrders st; vendorBills := x;
     products := products st |}.
Definition withProducts (st : Store) (x : list Product.t) : Store :=
  {| sequences := sequences st; salesOrders := salesOrders st; invoices := invoices st;
     purchaseOrders := purchaseOrders st; vendorBills := vendorBills st;
     products := x |}.

(** ** Responses *)

Inductive Payload : Type :=
| ErrorJson (error : string)
| SuccessJson
| OrderJson (order : Order.t)
| ConfirmJson (order : Order.t) (message : string)
| ProductJson (product : Product.t).

Record Response : Type := {
  code : nat;
  payload : Payload
}.

Definition json (p : Payload) (c : nat) : Response := {| code := c; payload := p |}.

(** ** The Prisma calls the handlers make *)

Module Prisma.

(** [findUnique({ where: { id } })] *)
Definition findOrder (id : string) (os : list Order.t) : option Order.t :=
  find (fun o => String.eqb (Order.id o) id) os.

(** [update({ where: { id }, data })]: the updated row and the table, or
    [None] when no row has this id (the client throws). *)
Fixpoint updateOrder (id : string) (data : Order.t -> Order.t) (os : list Order.t)
  : option (Order.t * list Order.t) :=
  match os with
  | [] => None
  | o :: rest =>
      if String.eqb (Order.id o) id then Some (data o, data o :: rest)
      else match updateOrder id data rest with
           | Some (o', rest') => Some (o', o :: rest')
           | None => None
           end
  end.

Definition refersTo (id : string) (d : Doc.t) : bool :=
  match Doc.sourceOrderId d with
  | Some x => String.eqb x id
  | None => false
  end.

(** [findFirst({ where: { salesOrderId: id } })] *)
Definition findFirstBySource (id : string) (ds : list Doc.t) : option Doc.t :=
  find (refersTo id) ds.

(** [count({ where: { salesOrderId: id } })] *)
Definition countBySource (id : string) (ds : list Doc.t) : nat :=
  List.length (filter (refersTo id) ds).

(** [findFirst({ orderBy: { invoiceNumber: 'desc' } })]: the row with the
    greatest number in the order of the text column. *)
Fixpoint findLastByNumber (ds : list Doc.t) : option Doc.t :=
  match ds with
  | [] => None
  | d :: rest =>
      match findLastByNumber rest with
      | Some m => if Str.ltb (Doc.number d) (Doc.number m) then Some m else Some d
      | None => Some d
      end
  end.

Definition findSequence (name : string) (qs : list Sequence.t) : option Sequence.t :=
  find (fun q => String.eqb (Sequence.name q) name) qs.

Fixpoint updateSequence (name : string) (data : Sequence.t -> Sequence.t)
  (qs : list Sequence.t) : option (Sequence.t * list Sequence.t) :=
  match qs with
  | [] => None
  | q :: rest =>
      if String.eqb (Sequence.name q) name then Some (data q, data q :: rest)
      else match updateSequence name data rest with
           | Some (q', rest') => Some (q', q :: rest')
           | None => None
           end
  end.


Fixpoint updateProduct (id : string) (data : Product.t -> Product.t)
  (ps : list Product.t) : option (Product.t * list Product.t) :=
  match ps with
  | [] => None
  | p :: rest =>
      if String.eqb (Product.id p) id then Some (data p, data p :: rest)
      else match updateProduct id data rest with
           | Some (p', rest') => Some (p', p :: rest')
           | None => None
           end
  end.

(** A column written with [undefined] keeps its value; a text or enum
    column takes a string; any other value is refused by the client, which
    throws ([None]). *)
Definition textData (v : JS.value) : option (string -> string) :=
  match v with
  | JS.undefined => Some (fun old => old)
  | JS.str s => Some (fun _ => s)
  | _ => None
  end.

(** The same for a required decimal column. *)
Definition decimalData (v : JS.value) : option (JS.value -> JS.value) :=
  match v with
  | JS.undefined => Some (fun old => old)
  | JS.number _ | JS.str _ | JS.decimal _ => Some (fun _ => v)
  | _ => None
  end.

(** A nullable column written with any value but [undefined] takes it. *)
Definition anyData (v : JS.value) : JS.value -> JS.value :=
  match v with
  | JS.undefined => fun old => old
  | _ => fun _ => v
  end.

End Prisma.

(** ** The sequence generator of [lib/utils] *)

Definition SEQUENCE_DEFAULTS (sequenceName : string) : option (string * Z) :=
  if String.eqb sequenceName "contact" then Some ("CONT", 5)
  else if String.eqb sequenceName "product" then Some ("PROD", 5)
  else if String.eqb sequenceName "purchaseOrder" then Some ("PO", 5)
  else if String.eqb sequenceName "vendorBill" then Some ("BILL", 5)
  else if String.eqb sequenceName "salesOrder" then Some ("SO", 5)
  else if String.eqb sequenceName "invoice" then Some ("INV", 5)
  else if String.eqb sequenceName "payment" then Some ("PAY", 5)
  else if String.eqb sequenceName "analyticalAccount" then Some ("AA", 4)
  else None.

(** [prefix + '-' + number.toString().padStart(padding, '0')] *)
Definition formatSequence (prefix : string) (number padding : Z) : string :=
  prefix ++ "-" ++ Str.padStart (Z.to_nat padding) "0" (Str.ofZ number).

Definition getNextSequence (sequenceName : string) (qs : list Sequence.t)
  : string * list Sequence.t :=
  let qs1 :=
    match Prisma.findSequence sequenceName qs with
    | Some _ => qs
    | None =>
        let defaults :=
          match SEQUENCE_DEFAULTS sequenceName with
          | Some d => d
          | None => (Str.slice0 4 (Str.toUpperCase sequenceName), 5)
          end in
        (qs ++ [Sequence.mk sequenceName (fst defaults) 1 (snd defaults)])%list
    end in
  match Prisma.updateSequence sequenceName
          (fun q => Sequence.mk (Sequence.name q) (Sequence.prefix q)
                      (Sequence.nextNumber q + 1) (Sequence.padding q)) qs1 with
  | Some (updated, qs2) =>
      (formatSequence (Sequence.prefix updated) (Sequence.nextNumber updated - 1)
         (Sequence.padding updated), qs2)
  | None => (EmptyString, qs1)
  end.

(** ** Line and header totals *)

Local Open Scope float_scope.

(** The callback of [lines.map] in [POST /api/purchase-orders]: the line
    subtotal, the line tax and the row to insert. *)
Definition postLine (rt : Runtime) (line : Line.t) : float * float * Line.t :=
  let lineSubtotal := parseDecimal rt (Line.quantity line) * parseDecimal rt (Line.unitPrice line) in
  let lineTax := lineSubtotal * (parseDecimal rt (JS.or (Line.taxRate line) (JS.number 0)) / 100) in
  let lineTotal := lineSubtotal + lineTax in
  (lineSubtotal, lineTax,
   Line.mk (Line.productId line)
           (JS.or (Line.description line) (JS.str ""))
           (Line.quantity line)
           (Line.unitPrice line)
           (JS.or (Line.taxRate line) (JS.number 0))
           (JS.number lineTax)
           (JS.number lineTotal)
           (JS.or (Line.analyticalAccountId line) JS.null)).

(** The callback of [lines.map] in the two [PUT] handlers. *)
Definition putLine (rt : Runtime) (line : Line.t) : float * float * Line.t :=
  let lineSubtotal := parseDecimal rt (Line.quantity line) * parseDecimal rt (Line.unitPrice line) in
  let lineTax := lineSubtotal * (parseDecimal rt (Line.taxRate line) / 100) in
  let lineTotal := lineSubtotal + lineTax in
  (lineSubtotal, lineTax,
   Line.mk (Line.productId line)
           (Line.description line)
           (Line.quantity line)
           (Line.unitPrice line)
           (Line.taxRate line)
           (JS.number lineTax)
           (JS.number lineTotal)
           (Line.analyticalAccountId line)).

(** [let subtotal = 0; let taxAmount = 0; const lines = xs.map(callback)]:
    the callback adds to the two accumulators as it goes through the lines
    in order. *)
Definition computeLines (callback : Line.t -> float * float * Line.t)
  (xs : list Line.t) : float * float * list Line.t :=
  fold_left
    (fun acc line =>
       let '(subtotal, taxAmount, rows) := acc in
       let '(lineSubtotal, lineTax, row) := callback line in
       (subtotal + lineSubtotal, taxAmount + lineTax, (rows ++ [row])%list))
    xs (0, 0, []).

Local Close Scope float_scope.

(** ** Generation of the invoice or vendor bill of an order *)

Definition thirtyDays : Z := 30 * 24 * 60 * 60 * 1000.

(** [order.lines.map((line) => ({ productId: line.productId, ... }))] *)
Definition copyLine (line : Line.t) : Line.t :=
  Line.mk (Line.productId line) (Line.description line) (Line.quantity line)
          (Line.unitPrice line) (Line.taxRate line) (Line.taxAmount line)
          (Line.lineTotal line) (Line.analyticalAccountId line).

(** The same in [PATCH /api/sales-orders/:id], which writes
    [line.description || ''], [line.taxRate || 0] and [line.taxAmount || 0]. *)
Definition copyLineOrDefault (line : Line.t) : Line.t :=
  Line.mk (Line.productId line)
          (JS.or (Line.description line) (JS.str ""))
          (Line.quantity line)
          (Line.unitPrice line)
          (JS.or (Line.taxRate line) (JS.number 0))
          (JS.or (Line.taxAmount line) (JS.number 0))
          (Line.lineTotal line) (Line.analyticalAccountId line).

(** [const lastNum = last ? parseInt(last.number.replace('INV-', '')) : 0;
     const number = `INV-${String(lastNum + 1).padStart(5, '0')}`], for the
    prefix [INV] or [BILL]. *)
Definition nextDocNumber (prefix : string) (docs : list Doc.t) : string :=
  let lastNum :=
    match Prisma.findLastByNumber docs with
    | Some last => Str.parseInt (Str.replace (prefix ++ "-") "" (Doc.number last))
    | None => Some 0
    end in
  prefix ++ "-" ++
  Str.padStart 5 "0" (match lastNum with Some n => Str.ofZ (n + 1) | None => "NaN" end).

(** [prisma.invoice.create] / [prisma.vendorBill.create] with the header
    and the lines taken from the order.  [new Date()] and [Date.now()] are
    one reading of the clock.  When the database refuses the insertion the
    call throws; the caller catches and logs it, and the table is left as it
    was. *)
Definition insertDerived (env : Env) (prefix initialStatus notes : string)
  (copy : Line.t -> Line.t) (id : string) (order : Order.t) (docs : list Doc.t)
  : list Doc.t :=
  let number := nextDocNumber prefix docs in
  if createFails env then docs
  else
    (docs ++
     [Doc.mk number
             (Order.partyId order)
             (Some id)
             (now env)
             (match Order.expectedDate order with
              | Some d => d
              | None => now env + thirtyDays
              end)
             initialStatus
             (Order.subtotal order)
             (Order.taxAmount order)
             (Order.totalAmount order)
             0%float
             notes
             (map copy (Order.lines order))])%list.

(** The body of the [try] block of the handlers: look for a document of
    this order first, and create one only when there is none. *)
Definition createDerived (env : Env) (prefix initialStatus notes : string)
  (copy : Line.t -> Line.t) (id : string) (order : Order.t) (docs : list Doc.t)
  : list Doc.t :=
  match Prisma.findFirstBySource id docs with
  | Some _ => docs
  | None => insertDerived env prefix initialStatus notes copy id order docs
  end.

(** ** Request bodies *)

(** The body of [PUT /api/sales-orders/:id] and [PUT /api/purchase-orders/:id].
    [lines] is [None] when [body.lines] is falsy; a date field is [None] when
    it is falsy and the time it denotes otherwise; [partyId] is [customerId]
    or [vendorId]. *)
Module PutBody.
Record t : Type := mk {
  lines : option (list Line.t);
  partyId : JS.value;
  orderDate : option Z;
  expectedDate : option Z;
  status : JS.value;
  notes : JS.value
}.
End PutBody.

(** The body of [POST /api/purchase-orders]. *)
Module PostBody.
Record t : Type := mk {
  lines : list Line.t;
  vendorId : JS.value;
  orderDate : option Z;
  expectedDate : option Z;
  status : JS.value;
  notes : JS.value
}.
End PostBody.

Definition setStatus (f : string -> string) (o : Order.t) : Order.t :=
  Order.mk (Order.id o) (Order.orderNumber o) (Order.partyId o) (Order.orderDate o)
           (Order.expectedDate o) (f (Order.status o)) (Order.subtotal o)
           (Order.taxAmount o) (Order.totalAmount o) (Order.notes o) (Order.lines o).

Definition setLines (ls : list Line.t) (o : Order.t) : Order.t :=
  Order.mk (Order.id o) (Order.orderNumber o) (Order.partyId o) (Order.orderDate o)
           (Order.expectedDate o) (Order.status o) (Order.subtotal o)
           (Order.taxAmount o) (Order.totalAmount o) (Order.notes o) ls.

Definition orElse {A : Type} (new : option A) (old : A) : A :=
  match new with Some x => x | None => old end.

(** The data of the update that follows a replacement of the lines. *)
Definition fullUpdate (fParty fStatus : string -> string) (body : PutBody.t)
  (subtotal taxAmount totalAmount : float) (o : Order.t) : Order.t :=
  Order.mk (Order.id o) (Order.orderNumber o)
           (fParty (Order.partyId o))
           (orElse (PutBody.orderDate body) (Order.orderDate o))
           (match PutBody.expectedDate body with
            | Some d => Some d
            | None => Order.expectedDate o
            end)
           (fStatus (Order.status o))
           subtotal taxAmount totalAmount
           (Prisma.anyData (PutBody.notes body) (Order.notes o))
           (Order.lines o).

(** The data of the update without lines: status, expected date and notes. *)
Definition simpleUpdate (fStatus : string -> string) (body : PutBody.t)
  (o : Order.t) : Order.t :=
  Order.mk (Order.id o) (Order.orderNumber o) (Order.partyId o) (Order.orderDate o)
           (match PutBody.expectedDate body with
            | Some d => Some d
            | None => Order.expectedDate o
            end)
           (fStatus (Order.status o))
           (Order.subtotal o) (Order.taxAmount o) (Order.totalAmount o)
           (Prisma.anyData (PutBody.notes body) (Order.notes o))
           (Order.lines o).

(** [body.status === 'CONFIRMED'] *)
Definition isStatus (v : JS.value) (s : string) : bool :=
  match v with
  | JS.str x => String.eqb x s
  | _ => false
  end.

Definition authorizedAdmin (rt : Runtime) (user : option User.t) : bool :=
  match user with
  | Some u => isAdmin rt u
  | None => false
  end.

(** [deleteMany({ where: { salesOrderId: id } })] on the lines. *)
Definition deleteLines (id : string) (os : list Order.t) : list Order.t :=
  map (fun o => if String.eqb (Order.id o) id then setLines [] o else o) os.

(** [createMany({ data: lines })]: the rows carry the foreign key [id], so
    the insertion throws ([None]) when the order does not exist. *)
Definition createLines (id : string) (ls : list Line.t) (os : list Order.t)
  : option (list Order.t) :=
  option_map snd
    (Prisma.updateOrder id (fun o => setLines (Order.lines o ++ ls) o) os).

(** ** [src/app/api/sales-orders/[id]/route.ts] *)

Module SalesOrderById.

Definition invoiceNotes (order : Order.t) : string :=
  "Invoice created from Sales Order " ++ Order.orderNumber order.

(** [PATCH]: update the status only.  The e-mail sent on [SENT] does not
    touch the store, and its failure is caught. *)
Definition PATCH (rt : Runtime) (env : Env) (user : option User.t)
  (id : string) (status : JS.value) (st : Store) : Response * Store :=
  if negb (authorizedAdmin rt user) then (json (ErrorJson "Unauthorized") 401, st)
  else
    match Prisma.textData status with
    | None => (json (ErrorJson "Failed to update status") 500, st)
    | Some fStatus =>
        match Prisma.updateOrder id (setStatus fStatus) (salesOrders st) with
        | None => (json (ErrorJson "Failed to update status") 500, st)
        | Some (order, orders) =>
            let st1 := withSalesOrders st orders in
            let st2 :=
              if isStatus status "CONFIRMED"
              then withInvoices st1
                     (createDerived env "INV" "POSTED" (invoiceNotes order)
                        copyLineOrDefault id order (invoices st1))
              else st1 in
            (json (OrderJson order) 200, st2)
        end
    end.

(** [PUT]: full update.  With [body.lines] the lines are replaced and the
    header recomputed, and the handler returns there; without, status,
    expected date and notes are updated and a confirmation creates the
    invoice. *)
Definition PUT (rt : Runtime) (env : Env) (user : option User.t)
  (id : string) (body : PutBody.t) (st : Store) : Response * Store :=
  if negb (authorizedAdmin rt user) then (json (ErrorJson "Unauthorized") 401, st)
  else
    match PutBody.lines body with
    | Some bodyLines =>
        let st1 := withSalesOrders st (deleteLines id (salesOrders st)) in
        let linesWithAnalytical := applyAutoAnalyticalToLines rt bodyLines in
        let '(subtotal, taxAmount, lines) := computeLines (putLine rt) linesWithAnalytical in
        let totalAmount := (subtotal + taxAmount)%float in
        match createLines id lines (salesOrders st1) with
        | None => (json (ErrorJson "Failed to update sales order") 500, st1)
        | Some orders2 =>
            let st2 := withSalesOrders st1 orders2 in
            match Prisma.textData (PutBody.partyId body),
                  Prisma.textData (PutBody.status body) with
            | Some fParty, Some fStatus =>
                match Prisma.updateOrder id
                        (fullUpdate fParty fStatus body subtotal taxAmount totalAmount)
                        (salesOrders st2) with
                | Some (order, orders3) =>
                    (json (OrderJson order) 200, withSalesOrders st2 orders3)
                | None => (json (ErrorJson "Failed to update sales order") 500, st2)
                end
            | _, _ => (json (ErrorJson "Failed to update sales order") 500, st2)
            end
        end
    | None =>
        match Prisma.textData (PutBody.status body) with
        | None => (json (ErrorJson "Failed to update sales order") 500, st)
        | Some fStatus =>
            match Prisma.updateOrder id (simpleUpdate fStatus body) (salesOrders st) with
            | None => (json (ErrorJson "Failed to update sales order") 500, st)
            | Some (order, orders) =>
                let st1 := withSalesOrders st orders in
                let st2 :=
                  if isStatus (PutBody.status body) "CONFIRMED"
                  then withInvoices st1
                         (createDerived env "INV" "POSTED" (invoiceNotes order)
                            copyLine id order (invoices st1))
                  else st1 in
                (json (OrderJson order) 200, st2)
            end
        end
    end.

Definition DELETE (rt : Runtime) (user : option User.t) (id : string)
  (st : Store) : Response * Store :=
  if negb (authorizedAdmin rt user) then (json (ErrorJson "Unauthorized") 401, st)
  else
    let linkedInvoices := Prisma.countBySource id (invoices st) in
    if (0 <? linkedInvoices)%nat
    then (json (ErrorJson "Cannot delete sales order with linked invoices") 400, st)
    else
      match Prisma.updateOrder id (setStatus (fun _ => "CANCELLED")) (salesOrders st) with
      | None => (json (ErrorJson "Failed to delete sales order") 500, st)
      | Some (_, orders) => (json SuccessJson 200, withSalesOrders st orders)
      end.

End SalesOrderById.

(** ** [api/purchase-orders/[id]/route.ts] *)

Module PurchaseOrderById.

Definition billNotes (order : Order.t) : string :=
  "Bill created from Purchase Order " ++ Order.orderNumber order.

(** [PUT].  Both branches create the vendor bill on a confirmation: with
    status [POSTED] after a replacement of the lines, with status [DRAFT]
    otherwise. *)
Definition PUT (rt : Runtime) (env : Env) (user : option User.t)
  (id : string) (body : PutBody.t) (st : Store) : Response * Store :=
  if negb (authorizedAdmin rt user) then (json (ErrorJson "Unauthorized") 401, st)
  else
    match PutBody.lines body with
    | Some bodyLines =>
        let st1 := withPurchaseOrders st (deleteLines id (purchaseOrders st)) in
        let linesWithAnalytical := applyAutoAnalyticalToLines rt bodyLines in
        let '(subtotal, taxAmount, lines) := computeLines (putLine rt) linesWithAnalytical in
        let totalAmount := (subtotal + taxAmount)%float in
        match createLines id lines (purchaseOrders st1) with
        | None => (json (ErrorJson "Failed to update purchase order") 500, st1)
        | Some orders2 =>
            let st2 := withPurchaseOrders st1 orders2 in
            match Prisma.textData (PutBody.partyId body),
                  Prisma.textData (PutBody.status body) with
            | Some fParty, Some fStatus =>
                match Prisma.updateOrder id
                        (fullUpdate fParty fStatus body subtotal taxAmount totalAmount)
                        (purchaseOrders st2) with
                | Some (order, orders3) =>
                    let st3 := withPurchaseOrders st2 orders3 in
                    let st4 :=
                      if isStatus (PutBody.status body) "CONFIRMED"
                      then withVendorBills st3
                             (createDerived env "BILL" "POSTED" (billNotes order)
                                copyLine id order (vendorBills st3))
                      else st3 in
                    (json (OrderJson order) 200, st4)
                | None => (json (ErrorJson "Failed to update purchase order") 500, st2)
                end
            | _, _ => (json (ErrorJson "Failed to update purchase order") 500, st2)
            end
        end
    | None =>
        match Prisma.textData (PutBody.status body) with
        | None => (json (ErrorJson "Failed to update purchase order") 500, st)
        | Some fStatus =>
            match Prisma.updateOrder id (simpleUpdate fStatus body) (purchaseOrders st) with
            | None => (json (ErrorJson "Failed to update purchase order") 500, st)
            | Some (order, orders) =>
                let st1 := withPurchaseOrders st orders in
                let st2 :=
                  if isStatus (PutBody.status body) "CONFIRMED"
                  then withVendorBills st1
                         (createDerived env "BILL" "DRAFT" (billNotes order)
                            copyLine id order (vendorBills st1))
                  else st1 in
                (json (OrderJson order) 200, st2)
            end
        end
    end.

Definition DELETE (rt : Runtime) (user : option User.t) (id : string)
  (st : Store) : Response * Store :=
  if negb (authorizedAdmin rt user) then (json (ErrorJson "Unauthorized") 401, st)
  else
    let linkedBills := Prisma.countBySource id (vendorBills st) in
    if (0 <? linkedBills)%nat
    then (json (ErrorJson "Cannot delete purchase order with linked bills") 400, st)
    else
      match Prisma.updateOrder id (setStatus (fun _ => "CANCELLED")) (purchaseOrders st) with
      | None => (json (ErrorJson "Failed to delete purchase order") 500, st)
      | Some (_, orders) => (json SuccessJson 200, withPurchaseOrders st orders)
      end.

End PurchaseOrderById.

(** ** [src/app/api/purchase-orders/route.ts] *)

Module PurchaseOrders.

(** [POST]: the order number is drawn first, so a request that fails
    afterwards has still used it.  The vendor must be given as a string
    and [body.status || 'DRAFT'] must be one; the row gets a fresh
    identifier. *)
Definition POST (rt : Runtime) (env : Env) (user : option User.t)
  (body : PostBody.t) (st : Store) : Response * Store :=
  if negb (authorizedAdmin rt user) then (json (ErrorJson "Unauthorized") 401, st)
  else
    let '(orderNumber, qs) := getNextSequence "purchase_order" (sequences st) in
    let st1 := withSequences st qs in
    let linesWithAnalytical := applyAutoAnalyticalToLines rt (PostBody.lines body) in
    let '(subtotal, taxAmount, lines) := computeLines (postLine rt) linesWithAnalytical in
    let totalAmount := (subtotal + taxAmount)%float in
    match PostBody.vendorId body, JS.or (PostBody.status body) (JS.str "DRAFT") with
    | JS.str vendorId, JS.str status =>
        if createFails env
           || existsb (fun o => String.eqb (Order.id o) (newId env)) (purchaseOrders st1)
        then (json (ErrorJson "Failed to create purchase order") 500, st1)
        else
          let order :=
            Order.mk (newId env) orderNumber vendorId
                     (orElse (PostBody.orderDate body) (now env))
                     (PostBody.expectedDate body)
                     status subtotal taxAmount totalAmount
                     (PostBody.notes body) lines in
          (json (OrderJson order) 201,
           withPurchaseOrders st1 (purchaseOrders st1 ++ [order]))
    | _, _ => (json (ErrorJson "Failed to create purchase order") 500, st1)
    end.

End PurchaseOrders.

(** ** [src/app/api/vendor/orders/[id]/confirm/route.ts] *)

Module VendorConfirm.

Definition billNotes (order : Order.t) : string :=
  "Bill created from Purchase Order " ++ Order.orderNumber order
  ++ " - Confirmed by Vendor".

Definition POST (env : Env) (user : option User.t) (id : string) (st : Store)
  : Response * Store :=
  match user with
  | None => (json (ErrorJson "Unauthorized") 401, st)
  | Some u =>
      if negb (String.eqb (User.role u) "VENDOR")
      then (json (ErrorJson "Access denied. Vendor access required.") 403, st)
      else
        match User.contactId u with
        | None => (json (ErrorJson "Vendor profile not linked") 400, st)
        | Some contactId =>
            if String.eqb contactId ""
            then (json (ErrorJson "Vendor profile not linked") 400, st)
            else
            match Prisma.findOrder id (purchaseOrders st) with
            | None => (json (ErrorJson "Order not found") 404, st)
            | Some order =>
                if negb (String.eqb (Order.partyId order) contactId)
                then (json (ErrorJson "Access denied. This order does not belong to you.") 403, st)
                else if negb (String.eqb (Order.status order) "SENT")
                then (json (ErrorJson "Only sent orders can be confirmed") 400, st)
                else
                  match Prisma.updateOrder id (setStatus (fun _ => "CONFIRMED"))
                          (purchaseOrders st) with
                  | None => (json (ErrorJson "Failed to confirm order") 500, st)
                  | Some (updatedOrder, orders) =>
                      let st1 := withPurchaseOrders st orders in
                      let st2 :=
                        withVendorBills st1
                          (createDerived env "BILL" "DRAFT" (billNotes order)
                             copyLine id order (vendorBills st1)) in
                      (json (ConfirmJson updatedOrder "Order confirmed successfully") 200, st2)
                  end
            end
        end
  end.

End VendorConfirm.

(** ** The maintenance script [createBillsForConfirmedPOs] *)

Module Script.

Definition billNotes (po : Order.t) : string :=
  "Bill created from Purchase Order " ++ Order.orderNumber po.

(** The orders and their bills are read once, before the loop; an order
    whose list of bills was empty then gets a bill.  An exception leaves
    the loop, so after a refused insertion nothing more is written. *)
Definition createBillsForConfirmedPOs (env : Env) (st : Store) : Store :=
  let confirmedPOs :=
    filter (fun po => String.eqb (Order.status po) "CONFIRMED") (purchaseOrders st) in
  withVendorBills st
    (fold_left
       (fun bills po =>
          if (Prisma.countBySource (Order.id po) (vendorBills st) =? 0)%nat
          then insertDerived env "BILL" "DRAFT" (billNotes po) copyLine (Order.id po) po bills
          else bills)
       confirmedPOs (vendorBills st)).

End Script.

(** ** [src/app/api/products/route.ts] and [src/app/api/products/[id]/route.ts] *)

(** The fields of a product body that the price rule reads; the category,
    unit, tax rate and the other columns are passed through to the row and
    are left out. *)
Module ProductBody.
Record t : Type := mk {
  name : JS.value;
  purchasePrice : JS.value;
  salePrice : JS.value
}.
End ProductBody.

Module Products.

(** [POST]: the price check comes before the product code is drawn.  The
    two prices are required decimal columns. *)
Definition POST (rt : Runtime) (env : Env) (user : option User.t)
  (body : ProductBody.t) (st : Store) : Response * Store :=
  if negb (authorizedAdmin rt user) then (json (ErrorJson "Unauthorized") 401, st)
  else if lessThan rt (ProductBody.salePrice body) (ProductBody.purchasePrice body)
  then (json (ErrorJson "Sale Price cannot be less than Purchase Price") 400, st)
  else
    let '(code, qs) := getNextSequence "product" (sequences st) in
    let st1 := withSequences st qs in
    match ProductBody.purchasePrice body, ProductBody.salePrice body with
    | JS.undefined, _ | _, JS.undefined =>
        (json (ErrorJson "Failed to create product") 500, st1)
    | purchasePrice, salePrice =>
        match Prisma.decimalData purchasePrice, Prisma.decimalData salePrice with
        | Some _, Some _ =>
            if createFails env
               || existsb (fun p => String.eqb (Product.id p) (newId env)) (products st1)
            then (json (ErrorJson "Failed to create product") 500, st1)
            else
              let product :=
                Product.mk (newId env) code (ProductBody.name body)
                           purchasePrice salePrice in
              (json (ProductJson product) 201,
               withProducts st1 (products st1 ++ [product]))
        | _, _ => (json (ErrorJson "Failed to create product") 500, st1)
        end
    end.

End Products.

Module ProductById.

Definition update (name : JS.value) (fPurchase fSale : JS.value -> JS.value)
  (p : Product.t) : Product.t :=
  Product.mk (Product.id p) (Product.code p)
             (Prisma.anyData name (Product.name p))
             (fPurchase (Product.purchasePrice p))
             (fSale (Product.salePrice p)).

(** [PUT]: the prices are compared only when the body carries both. *)
Definition PUT (rt : Runtime) (user : option User.t) (id : string)
  (body : ProductBody.t) (st : Store) : Response * Store :=
  if negb (authorizedAdmin rt user) then (json (ErrorJson "Unauthorized") 401, st)
  else if JS.isDefined (ProductBody.salePrice body)
          && JS.isDefined (ProductBody.purchasePrice body)
          && lessThan rt (ProductBody.salePrice body) (ProductBody.purchasePrice body)
  then (json (ErrorJson "Sale Price cannot be less than Purchase Price") 400, st)
  else
    match Prisma.decimalData (ProductBody.purchasePrice body),
          Prisma.decimalData (ProductBody.salePrice body) with
    | Some fPurchase, Some fSale =>
        match Prisma.updateProduct id (update (ProductBody.name body) fPurchase fSale)
                (products st) with
        | Some (product, ps) => (json (ProductJson product) 200, withProducts st ps)
        | None => (json (ErrorJson "Failed to update product") 500, st)
        end
    | _, _ => (json (ErrorJson "Failed to update product") 500, st)
    end.

End ProductById.

(** ** The payment ledger *)

Module Ledger.

Inductive DocStatus : Type := DRAFT | POSTED | CANCELLED.

Inductive ErrorKind : Type := ValidationError | NotFoundError.

(** Amounts are decimal amounts counted in the smallest unit of the
    currency. *)
Record Document : Type := {
  docId : string;
  docStatus : DocStatus;
  totalAmount : Z;
  paidAmount : Z
}.

Record Payment : Type := {
  documentId : string;
  amount : Z
}.

Record t : Type := {
  documents : list Document;
  payments : list Payment
}.

Definition findDocument (id : string) (ds : list Document) : option Document :=
  find (fun d => String.eqb (docId d) id) ds.

Definition isCancelled (d : Document) : bool :=
  match docStatus d with CANCELLED => true | _ => false end.

Definition pay (id : string) (a : Z) (d : Document) : Document :=
  if String.eqb (docId d) id
  then {| docId := docId d; docStatus := docStatus d;
          totalAmount := totalAmount d; paidAmount := paidAmount d + a |}
  else d.

(** Modelled from the spec: the handler of [POST /api/payments] is not
    among the sources.  Section 4.5: the preconditions are [amount > 0],
    the referenced document exists and is not CANCELLED, and
    [amount <= totalAmount - paidAmount] (rejected with "exceeds amount
    due" otherwise); the effect, one atomic transaction, inserts the
    payment row and increments the document's [paidAmount] by [amount]. *)
Definition recordPayment (p : Payment) (l : t) : (ErrorKind * string) + t :=
  if amount p <=? 0 then inl (ValidationError, "amount must be positive")
  else
    match findDocument (documentId p) (documents l) with
    | None => inl (NotFoundError, "document not found")
    | Some d =>
        if isCancelled d then inl (ValidationError, "document is cancelled")
        else if totalAmount d - paidAmount d <? amount p
        then inl (ValidationError, "exceeds amount due")
        else inr {| documents := map (pay (documentId p) (amount p)) (documents l);
                    payments := (payments l ++ [p])%list |}
    end.

(** [sum(payments for document D)] *)
Definition paidTo (id : string) (ps : list Payment) : Z :=
  fold_right Z.add 0
    (map amount (filter (fun p => String.eqb (documentId p) id) ps)).

(** A run of payment requests; a rejected one changes nothing. *)
Definition recordAll (ps : list Payment) (l : t) : t :=
  fold_left (fun l p => match recordPayment p l with inr l' => l' | inl _ => l end) ps l.

End Ledger.

(** ** The auto-analytical rule engine *)

Module AutoAnalytical.

Inductive Lifecycle : Type := NEW | CONFIRMED | ARCHIVED.

Record Rule : Type := {
  partnerId : option string;
  partnerTag : option string;
  productCategoryId : option string;
  productId : option string;
  analyticalAccountId : string;
  autoApply : bool;
  status : Lifecycle
}.

(** What resolution reads of a line: its explicit account, its product,
    the product's category and default account, and the tag of the
    counterparty. *)
Record LineInfo : Type := {
  lineAccount : option string;
  lineProductId : string;
  lineProductCategoryId : option string;
  productDefaultAccount : option string;
  counterpartyTag : option string
}.

Definition fieldMatches (ruleField attribute : option string) : bool :=
  match ruleField, attribute with
  | None, _ => true
  | Some x, Some y => String.eqb x y
  | Some _, None => false
  end.

Definition isSet (f : option string) : nat :=
  match f with Some _ => 1 | None => 0 end.

(** Specificity: the number of non-null fields of the rule. *)
Definition specificity (r : Rule) : nat :=
  isSet (partnerId r) + isSet (partnerTag r)
  + isSet (productCategoryId r) + isSet (productId r).

Definition active (r : Rule) : bool :=
  autoApply r && match status r with CONFIRMED => true | _ => false end.

Definition matches (line : LineInfo) (counterpartyId : string) (r : Rule) : bool :=
  fieldMatches (partnerId r) (Some counterpartyId)
  && fieldMatches (partnerTag r) (counterpartyTag line)
  && fieldMatches (productCategoryId r) (lineProductCategoryId line)
  && fieldMatches (productId r) (Some (lineProductId line)).

Definition candidates (rules : list Rule) (line : LineInfo) (counterpartyId : string)
  : list Rule :=
  filter (fun r => active r && matches line counterpartyId r) rules.

(** The most specific rule of a list; of several with the highest
    specificity the first in the list is taken. *)
Fixpoint mostSpecific (rs : list Rule) : option Rule :=
  match rs with
  | [] => None
  | r :: rest =>
      match mostSpecific rest with
      | Some b => if (specificity r <? specificity b)%nat then Some b else Some r
      | None => Some r
      end
  end.

(** Modelled from the spec: [lib/auto-analytical] is not among the
    sources.  Section 4.2: an explicit account on the line passes through;
    otherwise, among the rules with [autoApply] and lifecycle status
    CONFIRMED whose every non-null field equals the attribute of the line
    or order, the one with the highest specificity is selected; when no
    rule matches the product's default account is returned, else null.
    The spec leaves the choice between rules of equal specificity open;
    here the first in the order of the rule list is taken. *)
Definition resolveAnalyticalAccount (rules : list Rule) (line : LineInfo)
  (counterpartyId : string) : option string :=
  match lineAccount line with
  | Some a => Some a
  | None =>
      match mostSpecific (candidates rules line counterpartyId) with
      | Some r => Some (analyticalAccountId r)
      | None => productDefaultAccount line
      end
  end.

End AutoAnalytical.

(** ** Reading the results *)

(** The left-to-right sum of numbers, as a loop [s += x] from [0] computes it. *)
Definition fsum (xs : list float) : float := fold_left PrimFloat.add xs 0%float.

(** The number a line row holds in a numeric column. *)
Definition asNumber (v : JS.value) : float :=
  match v with
  | JS.number f | JS.decimal f => f
  | _ => nan
  end.

(** The rational number a finite float stands for, exactly. *)
Definition exactQ (f : float) : option Q :=
  match Prim2SF f with
  | S754_zero _ => Some 0%Q
  | S754_finite s m e =>
      Some (Qmult (inject_Z (if s then Z.neg m else Z.pos m)) (Qpower (2 # 1) e))
  | _ => None
  end.

(** Rounding half-up to [digits] decimals. *)
Definition roundHalfUp (digits : nat) (x : Q) : Q :=
  let scale := inject_Z (10 ^ Z.of_nat digits) in
  Qdiv (inject_Z (Qfloor (Qplus (Qmult x scale) (1 # 2)))) scale.

(** The line tax in the words of the numeric rule of section 4.3: the
    decimal value [quantity * unitPrice * taxRate / 100], rounded half-up
    once. *)
Definition decimalLineTax (digits : nat) (quantity unitPrice taxRate : Q) : Q :=
  roundHalfUp digits (Qdiv (Qmult (Qmult quantity unitPrice) taxRate) (100 # 1)).

(** The header and lines of an order are consistent when the header holds
    the running sums of the line values and every line holds its own
    subtotal plus tax. *)
Definition lineConsistent (rt : Runtime) (l : Line.t) : Prop :=
  let lineSubtotal :=
    (parseDecimal rt (Line.quantity l) * parseDecimal rt (Line.unitPrice l))%float in
  Line.taxAmount l
    = JS.number (lineSubtotal * (parseDecimal rt (Line.taxRate l) / 100))%float
  /\ Line.lineTotal l = JS.number (lineSubtotal + asNumber (Line.taxAmount l))%float.

Definition headerConsistent (rt : Runtime) (o : Order.t) : Prop :=
  Order.subtotal o
    = fsum (map (fun l => (parseDecimal rt (Line.quantity l)
                           * parseDecimal rt (Line.unitPrice l))%float) (Order.lines o))
  /\ Order.taxAmount o = fsum (map (fun l => asNumber (Line.taxAmount l)) (Order.lines o))
  /\ Order.totalAmount o = (Order.subtotal o + Order.taxAmount o)%float.

(** The sum of the line totals, which the header total is compared with. *)
Definition sumLineTotals (o : Order.t) : float :=
  fsum (map (fun l => asNumber (Line.lineTotal l)) (Order.lines o)).

(** ** Requests *)

(** The requests of the handlers above, and the store after a run of them. *)
Inductive Request : Type :=
| SalesPATCH (user : option User.t) (id : string) (status : JS.value)
| SalesPUT (user : option User.t) (id : string) (body : PutBody.t)
| SalesDELETE (user : option User.t) (id : string)
| PurchasePOST (user : option User.t) (body : PostBody.t)
| PurchasePUT (user : option User.t) (id : string) (body : PutBody.t)
| PurchaseDELETE (user : option User.t) (id : string)
| VendorConfirmPOST (user : option User.t) (id : string)
| ProductPOST (user : option User.t) (body : ProductBody.t)
| ProductPUT (user : option User.t) (id : string) (body : ProductBody.t)
| BillScript.

Definition handle (rt : Runtime) (env : Env) (r : Request) (st : Store)
  : Response * Store :=
  match r with
  | SalesPATCH user id status => SalesOrderById.PATCH rt env user id status st
  | SalesPUT user id body => SalesOrderById.PUT rt env user id body st
  | SalesDELETE user id => SalesOrderById.DELETE rt user id st
  | PurchasePOST user body => PurchaseOrders.POST rt env user body st
  | PurchasePUT user id body => PurchaseOrderById.PUT rt env user id body st
  | PurchaseDELETE user id => PurchaseOrderById.DELETE rt user id st
  | VendorConfirmPOST user id => VendorConfirm.POST env user id st
  | ProductPOST user body => Products.POST rt env user body st
  | ProductPUT user id body => ProductById.PUT rt user id body st
  | BillScript => (json SuccessJson 200, Script.createBillsForConfirmedPOs env st)
  end.

(** Requests are served one after the other, each in its own environment. *)
Definition run (rt : Runtime) (rs : list (Env * Request)) (st : Store) : Store :=
  fold_left (fun st er => snd (handle rt (fst er) (snd er) st)) rs st.

(** At most one document of a table refers to an order. *)
Definition atMostOnePerOrder (docs : list Doc.t) : Prop :=
  forall id : string, (Prisma.countBySource id docs <= 1)%nat.

(** A runtime and users for the worked examples; the examples carry no
    numeric strings. *)
Definition exampleRuntime : Runtime :=
  {| parseFloat := fun _ => nan;
     StringToNumber := fun _ => nan;
     isAdmin := fun u => String.eqb (User.role u) "ADMIN";
     applyAutoAnalyticalToLines := fun ls => ls |}.

Definition admin : option User.t := Some (User.mk "ADMIN" None).

Definition exampleEnv (t : Z) (id : string) : Env :=
  {| now := t; newId := id; createFails := false |}.


(** ** Predicates of the statements *)

(** The invariant of the store that the handlers keep.  The identifiers of
    the purchase orders are a primary key. *)
Record StoreInv (st : Store) : Prop := {
  inv_invoices : atMostOnePerOrder (invoices st);
  inv_bills : atMostOnePerOrder (vendorBills st);
  inv_keys : NoDup (map Order.id (purchaseOrders st))
}.

(** The requests that write the lines of an order: the creation of a
    purchase order and a [PUT] whose body carries lines. *)
Definition replacesLines (r : Request) : bool :=
  match r with
  | PurchasePOST _ _ => true
  | SalesPUT _ _ body | PurchasePUT _ _ body =>
      match PutBody.lines body with Some _ => true | None => false end
  | _ => false
  end.


(** The edges of the status graph of section 4.3: DRAFT -> SENT ->
    CONFIRMED, and CANCELLED from each of the three. *)
Definition allowedTransition (from to : string) : bool :=
  (String.eqb from "DRAFT" && String.eqb to "SENT")
  || (String.eqb from "SENT" && String.eqb to "CONFIRMED")
  || ((String.eqb from "DRAFT" || String.eqb from "SENT" || String.eqb from "CONFIRMED")
      && String.eqb to "CANCELLED").



(** The ledger is consistent when document identifiers are unique and every
    document's paidAmount is the sum of the payments recorded against it and
    does not exceed its totalAmount. *)
Definition consistentLedger (l : Ledger.t) : Prop :=
  NoDup (map Ledger.docId (Ledger.documents l))
  /\ forall d, In d (Ledger.documents l) ->
               Ledger.paidAmount d = Ledger.paidTo (Ledger.docId d) (Ledger.payments l)
               /\ Ledger.paidAmount d <= Ledger.totalAmount d.

(** ** Worked examples *)

(** An order without lines and a document without lines, of customer [c1]. *)
Definition sampleOrder (id number status : string) : Order.t :=
  Order.mk id number "c1" 0 None status 0%float 0%float 0%float JS.null [].

Definition sampleDoc (number : string) (source : option string) : Doc.t :=
  Doc.mk number "c1" source 0 0 "POSTED" 0%float 0%float 0%float 0%float "" [].

(** A body line of product [p1] with numeric quantity, price and tax rate. *)
Definition numericLine (q u r : float) : Line.t :=
  Line.mk (JS.str "p1") (JS.str "") (JS.number q) (JS.number u) (JS.number r)
          JS.undefined JS.undefined JS.null.

(** The body of a purchase order of vendor [v1] with these lines. *)
Definition orderBody (ls : list Line.t) : PostBody.t :=
  PostBody.mk ls (JS.str "v1") None None JS.undefined JS.null.

(** A body that carries a status only. *)
Definition statusOnly (s : string) : PutBody.t :=
  PutBody.mk None JS.undefined None None (JS.str s) JS.undefined.

Definition vendor1 : option User.t := Some (User.mk "VENDOR" (Some "v1")).

(** The order of scenario 7 of the spec as the handler stores it: one line,
    2 units at 100, 18% tax. *)
Definition scenarioOrder : Order.t :=
  Order.mk "po1" "PURC-00001" "v1" 1000 None "DRAFT" 200%float 36%float 236%float JS.null
    [Line.mk (JS.str "p1") (JS.str "") (JS.number 2) (JS.number 100) (JS.number 18)
             (JS.number 36) (JS.number 236) JS.null].

(** A sales order dated at time 0, sent, without an expected date. *)
Definition openSalesOrder : Order.t :=
  Order.mk "so1" "SO-00001" "c1" 0 None "SENT" 200%float 36%float 236%float JS.null
    [Line.mk (JS.str "p1") (JS.str "chair") (JS.number 2) (JS.number 100) (JS.number 18)
             (JS.number 36) (JS.number 236) JS.null].

(** A purchase order created as SENT, confirmed by its vendor, confirmed
    once more by an admin, and then the maintenance script. *)
Definition twoConfirmations : list (Env * Request) :=
  [ (exampleEnv 1000 "po1",
     PurchasePOST admin (PostBody.mk [] (JS.str "v1") None None (JS.str "SENT") JS.null));
    (exampleEnv 2000 "", VendorConfirmPOST vendor1 "po1");
    (exampleEnv 3000 "", PurchasePUT admin "po1" (statusOnly "CONFIRMED"));
    (exampleEnv 4000 "", BillScript) ].

(** A purchase order created as SENT and confirmed by its vendor, which has
    generated its bill. *)
Definition confirmedPurchase : Store :=
  run exampleRuntime
    [ (exampleEnv 1000 "po1",
       PurchasePOST admin
         (PostBody.mk [numericLine 2 100 18] (JS.str "v1") None None (JS.str "SENT") JS.null));
      (exampleEnv 2000 "", VendorConfirmPOST vendor1 "po1") ]
    emptyStore.

(** A sales order confirmed by an admin, which has generated its invoice. *)
Definition confirmedSale : Store :=
  run exampleRuntime
    [ (exampleEnv 2000 "", SalesPATCH admin "so1" (JS.str "CONFIRMED")) ]
    (withSalesOrders emptyStore [openSalesOrder]).


(** The bill of scenario 7: total 236, nothing paid yet. *)
Definition bill236 : Ledger.t :=
  {| Ledger.documents :=
       [ {| Ledger.docId := "bill1"; Ledger.docStatus := Ledger.POSTED;
            Ledger.totalAmount := 236; Ledger.paidAmount := 0 |} ];
     Ledger.payments := [] |}.

Definition payBill (a : Z) : Ledger.Payment :=
  {| Ledger.documentId := "bill1"; Ledger.amount := a |}.

(** Rule A of scenario 8 matches the category C only, rule B the category
    C and the partner P. *)
Definition ruleA : AutoAnalytical.Rule :=
  {| AutoAnalytical.partnerId := None; AutoAnalytical.partnerTag := None;
     AutoAnalytical.productCategoryId := Some "C"; AutoAnalytical.productId := None;
     AutoAnalytical.analyticalAccountId := "account-A";
     AutoAnalytical.autoApply := true;
     AutoAnalytical.status := AutoAnalytical.CONFIRMED |}.

Definition ruleB : AutoAnalytical.Rule :=
  {| AutoAnalytical.partnerId := Some "P"; AutoAnalytical.partnerTag := None;
     AutoAnalytical.productCategoryId := Some "C"; AutoAnalytical.productId := None;
     AutoAnalytical.analyticalAccountId := "account-B";
     AutoAnalytical.autoApply := true;
     AutoAnalytical.status := AutoAnalytical.CONFIRMED |}.

(** A line of a product of category C, without an explicit account. *)
Definition lineOfCategoryC : AutoAnalytical.LineInfo :=
  {| AutoAnalytical.lineAccount := None;
     AutoAnalytical.lineProductId := "p1";
     AutoAnalytical.lineProductCategoryId := Some "C";
     AutoAnalytical.productDefaultAccount := Some "account-default";
     AutoAnalytical.counterpartyTag := None |}.


(** ** The read handlers *)

(** What a read handler answers: an error, one order with the documents
    included in it, or a list of orders with their included documents and
    the pagination block when the handler sends one. *)
Record Pagination : Type := {
  page : Z;
  limit : Z;
  total : Z;
  totalPages : option Z
}.

Inductive ViewPayload : Type :=
| ViewError (error : string)
| OrderView (order : Order.t) (documents : list Doc.t)
| OrdersView (orders : list (Order.t * list Doc.t)) (pagination : option Pagination).

Record ViewResponse : Type := {
  viewCode : nat;
  viewPayload : ViewPayload
}.

Definition view (p : ViewPayload) (c : nat) : ViewResponse :=
  {| viewCode := c; viewPayload := p |}.

(** [include: { invoices: true }] / [include: { vendorBills: true }] *)
Definition included (docs : list Doc.t) (o : Order.t) : list Doc.t :=
  filter (Prisma.refersTo (Order.id o)) docs.

(** [orderBy: { createdAt: 'desc' }].  The rows of this model do not carry
    the column [createdAt]; it is read through the function [createdAt].
    Rows with the same time keep their order. *)
Fixpoint insertDesc (createdAt : Order.t -> Z) (o : Order.t) (sorted : list Order.t)
  : list Order.t :=
  match sorted with
  | [] => [o]
  | x :: rest =>
      if createdAt x <? createdAt o then o :: sorted
      else x :: insertDesc createdAt o rest
  end.

Definition sortDesc (createdAt : Order.t -> Z) (os : list Order.t) : list Order.t :=
  fold_right (insertDesc createdAt) [] os.

(** [searchParams.get(name)] used as a condition: [null] and the empty
    string count as absent. *)
Definition given (param : option string) : option string :=
  match param with
  | Some s => if String.eqb s "" then None else Some s
  | None => None
  end.

(** [findMany({ skip, take })] on the ordered rows: a negative [skip] is
    refused by the client ([None]); a negative [take] counts from the end. *)
Definition skipTake {A : Type} (skip take : Z) (rows : list A) : option (list A) :=
  if skip <? 0 then None
  else if 0 <=? take
  then Some (firstn (Z.to_nat take) (skipn (Z.to_nat skip) rows))
  else Some (rev (firstn (Z.to_nat (- take)) (skipn (Z.to_nat skip) (rev rows)))).

(** [Math.ceil(total / limit)] as the response carries it: a division by
    zero gives [Infinity] or [NaN], which JSON writes as [null]. *)
Definition ceilDiv (total limit : Z) : option Z :=
  if limit =? 0 then None else Some (- ((- total) / limit)).

(** [GET /api/sales-orders/:id] *)
Module SalesOrderView.

Definition GET (user : option User.t) (id : string) (st : Store) : ViewResponse :=
  match user with
  | None => view (ViewError "Unauthorized") 401
  | Some u =>
      match Prisma.findOrder id (salesOrders st) with
      | None => view (ViewError "Sales order not found") 404
      | Some order =>
          if String.eqb (User.role u) "CUSTOMER"
             && negb (match User.contactId u with
                      | Some c => String.eqb c (Order.partyId order)
                      | None => false
                      end)
          then view (ViewError "Unauthorized") 401
          else view (OrderView order (included (invoices st) order)) 200
      end
  end.

End SalesOrderView.

(** [GET /api/purchase-orders/:id] *)
Module PurchaseOrderView.

Definition GET (user : option User.t) (id : string) (st : Store) : ViewResponse :=
  match user with
  | None => view (ViewError "Unauthorized") 401
  | Some _ =>
      match Prisma.findOrder id (purchaseOrders st) with
      | None => view (ViewError "Purchase order not found") 404
      | Some order => view (OrderView order (included (vendorBills st) order)) 200
      end
  end.

End PurchaseOrderView.

(** [GET /api/vendor/orders] *)
Module VendorOrders.

Definition visibleStatuses : list string :=
  ["SENT"; "CONFIRMED"; "PARTIALLY_RECEIVED"; "RECEIVED"].

(** The [where] of the query: the vendor's own orders, with a status of the
    list, or with the status of the query string when it gives one. *)
Definition selected (contactId : string) (status : option string) (o : Order.t) : bool :=
  String.eqb (Order.partyId o) contactId
  && match given status with
     | Some s => String.eqb (Order.status o) s
     | None => existsb (String.eqb (Order.status o)) visibleStatuses
     end.

Definition GET (createdAt : Order.t -> Z) (user : option User.t)
  (status : option string) (st : Store) : ViewResponse :=
  match user with
  | None => view (ViewError "Unauthorized") 401
  | Some u =>
      if negb (String.eqb (User.role u) "VENDOR")
      then view (ViewError "Access denied. Vendor access required.") 403
      else
        match User.contactId u with
        | None => view (ViewError "Vendor profile not linked") 400
        | Some contactId =>
            if String.eqb contactId ""
            then view (ViewError "Vendor profile not linked") 400
            else
              view (OrdersView
                      (map (fun o => (o, []))
                         (sortDesc createdAt
                            (filter (selected contactId status) (purchaseOrders st))))
                      None) 200
        end
  end.

End VendorOrders.

(** [GET /api/purchase-orders] *)
Module PurchaseOrderList.

Record Query : Type := {
  status : option string;
  vendorId : option string;
  pageParam : option string;
  limitParam : option string
}.

(** [if (status) where.status = status; if (vendorId) where.vendorId = vendorId] *)
Definition selected (q : Query) (o : Order.t) : bool :=
  match given (status q) with
  | Some s => String.eqb (Order.status o) s
  | None => true
  end
  && match given (vendorId q) with
     | Some v => String.eqb (Order.partyId o) v
     | None => true
     end.

(** [parseInt(searchParams.get('page') || '1')] *)
Definition numberParam (param : option string) (default : string) : option Z :=
  Str.parseInt (match given param with Some s => s | None => default end).

Definition GET (createdAt : Order.t -> Z) (user : option User.t) (q : Query)
  (st : Store) : ViewResponse :=
  match user with
  | None => view (ViewError "Unauthorized") 401
  | Some _ =>
      match numberParam (pageParam q) "1", numberParam (limitParam q) "20" with
      | Some page, Some limit =>
          let rows := sortDesc createdAt (filter (selected q) (purchaseOrders st)) in
          match skipTake ((page - 1) * limit) limit rows with
          | Some orders =>
              let total := Z.of_nat (List.length rows) in
              view (OrdersView
                      (map (fun o => (o, included (vendorBills st) o)) orders)
                      (Some {| page := page; limit := limit; total := total;
                               totalPages := ceilDiv total limit |})) 200
          | None => view (ViewError "Failed to fetch purchase orders") 500
          end
      | _, _ => view (ViewError "Failed to fetch purchase orders") 500
      end
  end.

(** The orders of the answer, none for an error. *)
Definition ordersOf (r : ViewResponse) : list Order.t :=
  match viewPayload r with
  | OrdersView orders _ => map fst orders
  | _ => []
  end.

End PurchaseOrderList.

(** ** Predicates of the further statements *)


(** The prefix, number and padding the next call for this name will use. *)
Definition upcoming (sequenceName : string) (qs : list Sequence.t) : string * Z * Z :=
  match Prisma.findSequence sequenceName qs with
  | Some q => (Sequence.prefix q, Sequence.nextNumber q, Sequence.padding q)
  | None =>
      match SEQUENCE_DEFAULTS sequenceName with
      | Some (prefix, padding) => (prefix, 1, padding)
      | None => (Str.slice0 4 (Str.toUpperCase sequenceName), 1, 5)
      end
  end.


(** Every order of the store has a consistent header and consistent lines,
    and identifiers are primary keys. *)
Definition orderConsistent (rt : Runtime) (o : Order.t) : Prop :=
  headerConsistent rt o /\ Forall (lineConsistent rt) (Order.lines o).

Record storeConsistent (rt : Runtime) (st : Store) : Prop := {
  sales_keys : NoDup (map Order.id (salesOrders st));
  purchase_keys : NoDup (map Order.id (purchaseOrders st));
  sales_consistent : Forall (orderConsistent rt) (salesOrders st);
  purchase_consistent : Forall (orderConsistent rt) (purchaseOrders st)
}.

(** The requests guarded by [isAdmin]. *)
Definition adminRequest (r : Request) : option (option User.t) :=
  match r with
  | SalesPATCH user _ _ | SalesPUT user _ _ | SalesDELETE user _
  | PurchasePOST user _ | PurchasePUT user _ _ | PurchaseDELETE user _
  | ProductPOST user _ | ProductPUT user _ _ => Some user
  | VendorConfirmPOST _ _ | BillScript => None
  end.

(** The requests that draw a number from a sequence. *)
Definition drawsNumber (r : Request) : bool :=
  match r with
  | PurchasePOST _ _ | ProductPOST _ _ => true
  | _ => false
  end.

(** A time of creation for the examples: the order date. *)
Definition byOrderDate (o : Order.t) : Z := Order.orderDate o.

(** A string of decimal digits only. *)
Fixpoint allDigits (s : string) : bool :=
  match s with
  | EmptyString => true
  | String c r => match Str.digit c with Some _ => allDigits r | None => false end
  end.

(** The body of the loop of [createBillsForConfirmedPOs], over the bills
    read before the loop ([snapshot]). *)
Definition scriptStep (env : Env) (snapshot bills : list Doc.t) (po : Order.t)
  : list Doc.t :=
  if (Prisma.countBySource (Order.id po) snapshot =? 0)%nat
  then insertDerived env "BILL" "DRAFT" (Script.billNotes po) copyLine (Order.id po) po bills
  else bills.

(** The query of page [p] with [l] orders a page, with the filters of [q]. *)
Definition pageQuery (q : PurchaseOrderList.Query) (p l : Z) : PurchaseOrderList.Query :=
  {| PurchaseOrderList.status := PurchaseOrderList.status q;
     PurchaseOrderList.vendorId := PurchaseOrderList.vendorId q;
     PurchaseOrderList.pageParam := Some (Str.ofZ p);
     PurchaseOrderList.limitParam := Some (Str.ofZ l) |}.

(** The orders of the pages 1 to [n], one request a page, in a row. *)
Definition allPages (createdAt : Order.t -> Z) (user : option User.t)
  (q : PurchaseOrderList.Query) (l : Z) (n : nat) (st : Store) : list Order.t :=
  List.concat
    (map (fun i =>
            PurchaseOrderList.ordersOf
              (PurchaseOrderList.GET createdAt user (pageQuery q (Z.of_nat i + 1) l) st))
       (seq 0 n)).

(** Newest first. *)
Definition newestFirst (createdAt : Order.t -> Z) (os : list Order.t) : Prop :=
  StronglySorted (fun a b => createdAt b <= createdAt a) os.

(** The numbers of the purchase orders come from the sequence
    [purchase_order]: each is the print of a number below the counter, and
    no two orders have the same. *)
Definition purchaseNumbering (st : Store) : Prop :=
  exists prefix n padding,
    upcoming "purchase_order" (sequences st) = (prefix, n, padding)
    /\ 1 <= n
    /\ Forall (fun s => exists k, 1 <= k < n /\ s = formatSequence prefix k padding)
         (map Order.orderNumber (purchaseOrders st))
    /\ NoDup (map Order.orderNumber (purchaseOrders st)).


(** * Properties *)

(** ** Document numbers *)

Lemma updateSequence_found (name : string) (data : Sequence.t -> Sequence.t)
  (qs : list Sequence.t) (q : Sequence.t) :
  Prisma.findSequence name qs = Some q ->
  exists qs', Prisma.updateSequence name data qs = Some (data q, qs').
Proof.
  induction qs as [|x rest IH]; simpl; [discriminate|].
  destruct (String.eqb (Sequence.name x) name) eqn:E.
  - intros H; injection H as ->. eexists; reflexivity.
  - intros H. destruct (IH H) as [qs' ->]. eexists; reflexivity.
Qed.

Lemma findSequence_app_new (name : string) (qs : list Sequence.t) (q : Sequence.t) :
  Prisma.findSequence name qs = None -> Sequence.name q = name ->
  Prisma.findSequence name (qs ++ [q]) = Some q.
Proof.
  unfold Prisma.findSequence. intros Hn Hq.
  induction qs as [|x rest IH]; simpl in *.
  - rewrite Hq, String.eqb_refl. reflexivity.
  - destruct (String.eqb (Sequence.name x) name); [discriminate|auto].
Qed.

(** A sequence that exists yields its prefix, a dash and its current number
    padded with zeros. *)
Lemma getNextSequence_existing (name : string) (qs : list Sequence.t) (q : Sequence.t) :
  Prisma.findSequence name qs = Some q ->
  fst (getNextSequence name qs)
  = formatSequence (Sequence.prefix q) (Sequence.nextNumber q) (Sequence.padding q).
Proof.
  intros H. unfold getNextSequence. rewrite H.
  destruct (updateSequence_found name
              (fun q => Sequence.mk (Sequence.name q) (Sequence.prefix q)
                          (Sequence.nextNumber q + 1) (Sequence.padding q)) qs q H)
    as [qs' ->].
  simpl. f_equal. lia.
Qed.

(** On first use the counter starts at 1, with the defaults of the table
    when the name is one of its keys. *)
Lemma getNextSequence_first_use (name prefix : string) (padding : Z)
  (qs : list Sequence.t) :
  Prisma.findSequence name qs = None ->
  SEQUENCE_DEFAULTS name = Some (prefix, padding) ->
  fst (getNextSequence name qs) = formatSequence prefix 1 padding.
Proof.
  intros Hn Hd. unfold getNextSequence. rewrite Hn, Hd. simpl fst; simpl snd.
  pose proof (findSequence_app_new name qs (Sequence.mk name prefix 1 padding) Hn eq_refl) as Hf.
  destruct (updateSequence_found name
              (fun q => Sequence.mk (Sequence.name q) (Sequence.prefix q)
                          (Sequence.nextNumber q + 1) (Sequence.padding q)) _ _ Hf)
    as [qs' ->].
  reflexivity.
Qed.

(** C5 (the code departs from the claim).  The claim has every generated
    identifier, invoice and bill numbers included, drawn from the sequence
    counter of its document type, with the default prefix of the type on
    first use.  Three evaluations of the code:
    - the purchase-order handler asks for the sequence [purchase_order],
      which is not a key of [SEQUENCE_DEFAULTS] (the key is
      [purchaseOrder], prefix [PO]), so the first order of a fresh database
      is numbered [PURC-00001];
    - confirming a sales order numbers the invoice [INV-00001] without
      touching the sequence table, and the counter [invoice] then issues
      [INV-00001] again;
    - with invoices [INV-99999] and [INV-100000] in the table, the next
      invoice is numbered [INV-100000] once more, because [INV-99999] is
      the last number in text order. *)
Theorem C5_numbers_not_from_sequence :
  SEQUENCE_DEFAULTS "purchaseOrder" = Some ("PO", 5)
  /\ fst (getNextSequence "purchase_order" []) = "PURC-00001"
  /\ (let st := withSalesOrders emptyStore [sampleOrder "so1" "SO-00001" "SENT"] in
      let st' := snd (SalesOrderById.PATCH exampleRuntime (exampleEnv 1000 "") admin
                        "so1" (JS.str "CONFIRMED") st) in
      map Doc.number (invoices st') = ["INV-00001"]
      /\ sequences st' = sequences st
      /\ fst (getNextSequence "invoice" (sequences st')) = "INV-00001")
  /\ nextDocNumber "INV"
       [sampleDoc "INV-99999" (Some "so1"); sampleDoc "INV-100000" (Some "so2")]
     = "INV-100000".
Proof. vm_compute. repeat split. Qed.

(** ** At most one derived document per order *)

Lemma countBySource_app (id : string) (ds es : list Doc.t) :
  Prisma.countBySource id (ds ++ es)
  = (Prisma.countBySource id ds + Prisma.countBySource id es)%nat.
Proof.
  unfold Prisma.countBySource. rewrite filter_app, length_app. reflexivity.
Qed.

Lemma findFirstBySource_None (id : string) (ds : list Doc.t) :
  Prisma.findFirstBySource id ds = None -> Prisma.countBySource id ds = 0%nat.
Proof.
  unfold Prisma.findFirstBySource, Prisma.countBySource.
  induction ds as [|d rest IH]; simpl; [reflexivity|].
  destruct (Prisma.refersTo id d); [discriminate|exact IH].
Qed.


(** What an insertion does to the number of documents of each order. *)
Lemma insertDerived_count (env : Env) (prefix initialStatus notes : string)
  (copy : Line.t -> Line.t) (id : string) (order : Order.t) (docs : list Doc.t)
  (id' : string) :
  Prisma.countBySource id' (insertDerived env prefix initialStatus notes copy id order docs)
  = (Prisma.countBySource id' docs
     + if createFails env then 0 else if String.eqb id id' then 1 else 0)%nat.
Proof.
  unfold insertDerived. destruct (createFails env); [lia|].
  rewrite countBySource_app. f_equal.
  unfold Prisma.countBySource, Prisma.refersTo. simpl.
  destruct (String.eqb id id'); reflexivity.
Qed.

Lemma createDerived_atMostOne (env : Env) (prefix initialStatus notes : string)
  (copy : Line.t -> Line.t) (id : string) (order : Order.t) (docs : list Doc.t) :
  atMostOnePerOrder docs ->
  atMostOnePerOrder (createDerived env prefix initialStatus notes copy id order docs).
Proof.
  intros H id'. unfold createDerived.
  destruct (Prisma.findFirstBySource id docs) eqn:E; [apply H|].
  rewrite insertDerived_count.
  destruct (createFails env); [rewrite Nat.add_0_r; apply H|].
  destruct (String.eqb id id') eqn:Eid.
  - apply String.eqb_eq in Eid. subst id'.
    rewrite (findFirstBySource_None _ _ E). lia.
  - rewrite Nat.add_0_r. apply H.
Qed.

(** A second generation for the same order finds the document and leaves
    the table as it is. *)
Lemma createDerived_existing (env : Env) (prefix initialStatus notes : string)
  (copy : Line.t -> Line.t) (id : string) (order : Order.t) (docs : list Doc.t) :
  (0 < Prisma.countBySource id docs)%nat ->
  createDerived env prefix initialStatus notes copy id order docs = docs.
Proof.
  intros H. unfold createDerived.
  destruct (Prisma.findFirstBySource id docs) eqn:E; [reflexivity|].
  rewrite (findFirstBySource_None _ _ E) in H. lia.
Qed.

(** Primary keys: an update keeps the identifiers of the table. *)
Lemma updateOrder_ids (id : string) (data : Order.t -> Order.t)
  (os os' : list Order.t) (o : Order.t) :
  (forall x, Order.id (data x) = Order.id x) ->
  Prisma.updateOrder id data os = Some (o, os') ->
  map Order.id os' = map Order.id os.
Proof.
  intros Hd. revert os' o.
  induction os as [|x rest IH]; simpl; intros os' o H; [discriminate|].
  destruct (String.eqb (Order.id x) id).
  - injection H as _ <-. simpl. rewrite Hd. reflexivity.
  - destruct (Prisma.updateOrder id data rest) as [[o1 r1]|] eqn:E; [|discriminate].
    injection H as _ <-. simpl. f_equal. eapply IH; reflexivity.
Qed.

Lemma deleteLines_ids (id : string) (os : list Order.t) :
  map Order.id (deleteLines id os) = map Order.id os.
Proof.
  unfold deleteLines. rewrite map_map. apply map_ext.
  intros o. destruct (String.eqb (Order.id o) id); reflexivity.
Qed.

Lemma createLines_ids (id : string) (ls : list Line.t) (os os' : list Order.t) :
  createLines id ls os = Some os' -> map Order.id os' = map Order.id os.
Proof.
  unfold createLines.
  destruct (Prisma.updateOrder id _ os) as [[o r]|] eqn:E; simpl; [|discriminate].
  intros H; injection H as <-.
  eapply updateOrder_ids; [|exact E]. reflexivity.
Qed.

Lemma script_fold_atMostOne (env : Env) (bills0 : list Doc.t) (pos : list Order.t) :
  NoDup (map Order.id pos) ->
  forall bills : list Doc.t,
    atMostOnePerOrder bills ->
    (forall po, In po pos -> Prisma.countBySource (Order.id po) bills0 = 0%nat ->
                Prisma.countBySource (Order.id po) bills = 0%nat) ->
    atMostOnePerOrder
      (fold_left
         (fun bills po =>
            if (Prisma.countBySource (Order.id po) bills0 =? 0)%nat
            then insertDerived env "BILL" "DRAFT" (Script.billNotes po) copyLine
                   (Order.id po) po bills
            else bills)
         pos bills).
Proof.
  induction pos as [|po rest IH]; simpl; intros Hnd bills Hb Hz; [exact Hb|].
  inversion Hnd as [|? ? Hnotin Hnd']; subst.
  apply IH; [exact Hnd'| |].
  - destruct (Prisma.countBySource (Order.id po) bills0 =? 0)%nat eqn:E; [|exact Hb].
    apply Nat.eqb_eq in E. intros id'. rewrite insertDerived_count.
    destruct (createFails env); [rewrite Nat.add_0_r; apply Hb|].
    destruct (String.eqb (Order.id po) id') eqn:Eid.
    + apply String.eqb_eq in Eid. subst id'.
      rewrite (Hz po (or_introl eq_refl) E). lia.
    + rewrite Nat.add_0_r. apply Hb.
  - intros po' Hin Hz0.
    destruct (Prisma.countBySource (Order.id po) bills0 =? 0)%nat eqn:E.
    + rewrite insertDerived_count.
      destruct (createFails env); [rewrite Nat.add_0_r; apply Hz; auto|].
      destruct (String.eqb (Order.id po) (Order.id po')) eqn:Eid.
      * apply String.eqb_eq in Eid. exfalso. apply Hnotin.
        rewrite Eid. apply in_map. exact Hin.
      * rewrite Nat.add_0_r. apply Hz; auto.
    + apply Hz; auto.
Qed.

Lemma NoDup_map_filter {A B : Type} (f : A -> B) (p : A -> bool) (xs : list A) :
  NoDup (map f xs) -> NoDup (map f (filter p xs)).
Proof.
  induction xs as [|x rest IH]; simpl; intros H; [constructor|].
  inversion H as [|? ? Hn Hr]; subst.
  destruct (p x); simpl; [constructor|]; auto.
  intros Hin. apply Hn. apply in_map_iff in Hin. destruct Hin as [y [Hy Hin]].
  apply filter_In in Hin. rewrite <- Hy. apply in_map. tauto.
Qed.

Lemma script_inv (env : Env) (st : Store) :
  StoreInv st -> StoreInv (Script.createBillsForConfirmedPOs env st).
Proof.
  intros [Hi Hb Hk]. unfold Script.createBillsForConfirmedPOs.
  constructor; simpl; [exact Hi| |exact Hk].
  apply script_fold_atMostOne; [apply NoDup_map_filter; exact Hk|exact Hb|auto].
Qed.

Ltac case_handler :=
  repeat match goal with
         | |- context [match ?x with _ => _ end] => destruct x eqn:?
         end.

Ltac keep_keys :=
  simpl in *;
  repeat match goal with
         | H : Prisma.updateOrder _ _ _ = Some _ |- _ =>
             apply updateOrder_ids in H; [|reflexivity]
         | H : createLines _ _ _ = Some _ |- _ => apply createLines_ids in H
         end;
  repeat match goal with
         | H : map Order.id _ = _ |- _ => rewrite H; clear H
         end;
  try rewrite deleteLines_ids.

Ltac close_inv :=
  constructor; keep_keys;
  auto using createDerived_atMostOne.

Lemma sales_PATCH_inv rt env user id status st :
  StoreInv st -> StoreInv (snd (SalesOrderById.PATCH rt env user id status st)).
Proof.
  intros [Hi Hb Hk]. unfold SalesOrderById.PATCH.
  case_handler; close_inv.
Qed.

Lemma sales_PUT_inv rt env user id body st :
  StoreInv st -> StoreInv (snd (SalesOrderById.PUT rt env user id body st)).
Proof.
  intros [Hi Hb Hk]. unfold SalesOrderById.PUT.
  case_handler; close_inv.
Qed.

Lemma sales_DELETE_inv rt user id st :
  StoreInv st -> StoreInv (snd (SalesOrderById.DELETE rt user id st)).
Proof.
  intros [Hi Hb Hk]. unfold SalesOrderById.DELETE.
  case_handler; close_inv.
Qed.

Lemma purchase_PUT_inv rt env user id body st :
  StoreInv st -> StoreInv (snd (PurchaseOrderById.PUT rt env user id body st)).
Proof.
  intros [Hi Hb Hk]. unfold PurchaseOrderById.PUT.
  case_handler; close_inv.
Qed.

Lemma purchase_DELETE_inv rt user id st :
  StoreInv st -> StoreInv (snd (PurchaseOrderById.DELETE rt user id st)).
Proof.
  intros [Hi Hb Hk]. unfold PurchaseOrderById.DELETE.
  case_handler; close_inv.
Qed.

Lemma vendor_POST_inv env user id st :
  StoreInv st -> StoreInv (snd (VendorConfirm.POST env user id st)).
Proof.
  intros [Hi Hb Hk]. unfold VendorConfirm.POST.
  case_handler; close_inv.
Qed.

Lemma existsb_id_false (id : string) (os : list Order.t) :
  existsb (fun o => String.eqb (Order.id o) id) os = false ->
  ~ In id (map Order.id os).
Proof.
  induction os as [|o rest IH]; simpl; [tauto|].
  intros H. apply orb_false_iff in H. destruct H as [H1 H2].
  apply String.eqb_neq in H1. intros [E|E]; [congruence|]. exact (IH H2 E).
Qed.

Lemma purchase_POST_inv rt env user body st :
  StoreInv st -> StoreInv (snd (PurchaseOrders.POST rt env user body st)).
Proof.
  intros [Hi Hb Hk]. unfold PurchaseOrders.POST.
  case_handler; try (constructor; simpl; assumption).
  constructor; simpl; try assumption.
  rewrite map_app. simpl.
  match goal with
  | H : (_ || _)%bool = false |- _ =>
      apply orb_false_iff in H; destruct H as [_ H]; simpl in H;
      apply existsb_id_false in H
  end.
  apply NoDup_app; [exact Hk|repeat constructor; simpl; tauto|].
  intros x Hx [<-|[]]. auto.
Qed.

Lemma product_POST_inv rt env user body st :
  StoreInv st -> StoreInv (snd (Products.POST rt env user body st)).
Proof.
  intros [Hi Hb Hk]. unfold Products.POST.
  case_handler; constructor; simpl; assumption.
Qed.

Lemma product_PUT_inv rt user id body st :
  StoreInv st -> StoreInv (snd (ProductById.PUT rt user id body st)).
Proof.
  intros [Hi Hb Hk]. unfold ProductById.PUT.
  case_handler; constructor; simpl; assumption.
Qed.

Lemma handle_inv (rt : Runtime) (env : Env) (r : Request) (st : Store) :
  StoreInv st -> StoreInv (snd (handle rt env r st)).
Proof.
  destruct r; simpl;
    auto using sales_PATCH_inv, sales_PUT_inv, sales_DELETE_inv, purchase_POST_inv,
      purchase_PUT_inv, purchase_DELETE_inv, vendor_POST_inv, product_POST_inv,
      product_PUT_inv, script_inv.
Qed.

Lemma run_inv (rt : Runtime) (rs : list (Env * Request)) (st : Store) :
  StoreInv st -> StoreInv (run rt rs st).
Proof.
  unfold run. revert st.
  induction rs as [|[env r] rest IH]; simpl; intros st H; [exact H|].
  apply IH. apply handle_inv. exact H.
Qed.

Lemma emptyStore_inv : StoreInv emptyStore.
Proof.
  constructor; simpl.
  - intros id. unfold Prisma.countBySource. simpl. lia.
  - intros id. unfold Prisma.countBySource. simpl. lia.
  - constructor.
Qed.

(** C1.  Requests being served one after the other, at most one invoice
    refers to a sales order and at most one vendor bill to a purchase
    order, in every store reached from a store where this holds (the empty
    database is one) by any run of requests to the handlers and of the
    maintenance script; and a confirmation of an order that already has its
    document finds it and leaves the table of documents as it is. *)
Theorem C1_at_most_one_derived_document
  (rt : Runtime) (rs : list (Env * Request)) (st : Store) :
  StoreInv st ->
  (forall id : string,
      (Prisma.countBySource id (invoices (run rt rs st)) <= 1)%nat
      /\ (Prisma.countBySource id (vendorBills (run rt rs st)) <= 1)%nat)
  /\ (forall env user id,
         (0 < Prisma.countBySource id (invoices st))%nat ->
         invoices (snd (SalesOrderById.PATCH rt env user id (JS.str "CONFIRMED") st))
         = invoices st)
  /\ (forall env user id,
         (0 < Prisma.countBySource id (vendorBills st))%nat ->
         vendorBills (snd (VendorConfirm.POST env user id st)) = vendorBills st).
Proof.
  intros Hinv. split; [|split].
  - intros id. destruct (run_inv rt rs st Hinv) as [Hi Hb _]. split; [apply Hi|apply Hb].
  - intros env user id Hex. unfold SalesOrderById.PATCH.
    case_handler; simpl; try reflexivity.
    apply createDerived_existing. exact Hex.
  - intros env user id Hex. unfold VendorConfirm.POST.
    case_handler; simpl; try reflexivity.
    apply createDerived_existing. exact Hex.
Qed.

Lemma C1_witness :
  map Doc.number (vendorBills (run exampleRuntime twoConfirmations emptyStore))
  = ["BILL-00001"]
  /\ (Prisma.countBySource "po1"
        (vendorBills (run exampleRuntime twoConfirmations emptyStore)) <= 1)%nat.
Proof.
  split; [vm_compute; reflexivity|].
  apply (C1_at_most_one_derived_document exampleRuntime twoConfirmations emptyStore).
  constructor; simpl.
  - intros id. unfold Prisma.countBySource. simpl. lia.
  - intros id. unfold Prisma.countBySource. simpl. lia.
  - constructor.
Defined.

(** ** Header totals and line values *)

Lemma computeLines_fold (callback : Line.t -> float * float * Line.t)
  (xs : list Line.t) (s t : float) (rows : list Line.t) :
  fold_left
    (fun acc line =>
       let '(subtotal, taxAmount, rows) := acc in
       let '(lineSubtotal, lineTax, row) := callback line in
       ((subtotal + lineSubtotal)%float, (taxAmount + lineTax)%float, (rows ++ [row])%list))
    xs (s, t, rows)
  = (fold_left PrimFloat.add (map (fun x => fst (fst (callback x))) xs) s,
     fold_left PrimFloat.add (map (fun x => snd (fst (callback x))) xs) t,
     (rows ++ map (fun x => snd (callback x)) xs)%list).
Proof.
  revert s t rows.
  induction xs as [|x rest IH]; intros s t rows; simpl.
  - rewrite app_nil_r. reflexivity.
  - destruct (callback x) as [[ls lt] row] eqn:E. simpl.
    rewrite IH. rewrite <- app_assoc. reflexivity.
Qed.

(** The two accumulators are the running sums of the line subtotals and of
    the line taxes, and the rows are those of the callback, in order. *)
Lemma computeLines_spec (callback : Line.t -> float * float * Line.t)
  (xs : list Line.t) :
  computeLines callback xs
  = (fsum (map (fun x => fst (fst (callback x))) xs),
     fsum (map (fun x => snd (fst (callback x))) xs),
     map (fun x => snd (callback x)) xs).
Proof. unfold computeLines, fsum. apply computeLines_fold. Qed.

Lemma postLine_consistent (rt : Runtime) (x : Line.t) :
  lineConsistent rt (snd (postLine rt x)).
Proof. unfold lineConsistent, postLine. simpl. split; reflexivity. Qed.

Lemma putLine_consistent (rt : Runtime) (x : Line.t) :
  lineConsistent rt (snd (putLine rt x)).
Proof. unfold lineConsistent, putLine. simpl. split; reflexivity. Qed.

(** The header and rows computed from the lines of a body are consistent,
    whatever else the header holds. *)
Lemma computed_consistent (rt : Runtime)
  (callback : Line.t -> float * float * Line.t) (xs : list Line.t)
  (subtotal taxAmount : float) (rows : list Line.t) (o : Order.t) :
  (forall x, lineConsistent rt (snd (callback x))) ->
  (forall x, fst (fst (callback x))
             = (parseDecimal rt (Line.quantity (snd (callback x)))
                * parseDecimal rt (Line.unitPrice (snd (callback x))))%float) ->
  (forall x, snd (fst (callback x)) = asNumber (Line.taxAmount (snd (callback x)))) ->
  computeLines callback xs = (subtotal, taxAmount, rows) ->
  Order.subtotal o = subtotal ->
  Order.taxAmount o = taxAmount ->
  Order.totalAmount o = (subtotal + taxAmount)%float ->
  Order.lines o = rows ->
  headerConsistent rt o /\ Forall (lineConsistent rt) (Order.lines o).
Proof.
  intros Hc Hs Ht Hcomp H1 H2 H3 H4.
  rewrite computeLines_spec in Hcomp. injection Hcomp as <- <- <-.
  unfold headerConsistent. rewrite H1, H2, H3, H4. rewrite !map_map.
  repeat split.
  - f_equal. apply map_ext. exact Hs.
  - f_equal. apply map_ext. exact Ht.
  - apply Forall_forall. intros l Hin. apply in_map_iff in Hin.
    destruct Hin as [x [<- _]]. apply Hc.
Qed.

Lemma updateOrder_In (id : string) (data : Order.t -> Order.t)
  (os os' : list Order.t) (o : Order.t) :
  Prisma.updateOrder id data os = Some (o, os') -> In o os'.
Proof.
  revert os' o. induction os as [|x rest IH]; simpl; intros os' o H; [discriminate|].
  destruct (String.eqb (Order.id x) id).
  - injection H as <- <-. left; reflexivity.
  - destruct (Prisma.updateOrder id data rest) as [[o1 r1]|] eqn:E; [|discriminate].
    injection H as <- <-. right. eapply IH; reflexivity.
Qed.

(** After the old lines are deleted and the new ones inserted, the update
    of the header returns the order with exactly the new lines. *)
Lemma replaced_lines (id : string) (ls : list Line.t) (data : Order.t -> Order.t)
  (os os2 os3 : list Order.t) (o : Order.t) :
  (forall x, Order.lines (data x) = Order.lines x) ->
  createLines id ls (deleteLines id os) = Some os2 ->
  Prisma.updateOrder id data os2 = Some (o, os3) ->
  Order.lines o = ls.
Proof.
  intros Hd. unfold createLines. revert os2 os3 o.
  induction os as [|x rest IH]; simpl; intros os2 os3 o H1 H2; [discriminate|].
  destruct (String.eqb (Order.id x) id) eqn:E; simpl in H1.
  - rewrite E in H1. simpl in H1. injection H1 as <-.
    simpl in H2. rewrite E in H2. injection H2 as <- _.
    rewrite Hd. reflexivity.
  - rewrite E in H1.
    destruct (Prisma.updateOrder id _ (deleteLines id rest)) as [[o1 r1]|] eqn:E1;
      simpl in H1; [|discriminate].
    injection H1 as <-. simpl in H2. rewrite E in H2.
    destruct (Prisma.updateOrder id data r1) as [[o2 r2]|] eqn:E2; [|discriminate].
    injection H2 as <- _.
    eapply (IH r1 r2 o2); [reflexivity|exact E2].
Qed.

Lemma updateOrder_result (id : string) (data : Order.t -> Order.t)
  (os os' : list Order.t) (o : Order.t) :
  Prisma.updateOrder id data os = Some (o, os') ->
  exists x, Prisma.findOrder id os = Some x /\ o = data x.
Proof.
  unfold Prisma.findOrder.
  revert os' o. induction os as [|x rest IH]; simpl; intros os' o H; [discriminate|].
  destruct (String.eqb (Order.id x) id) eqn:E.
  - injection H as <- _. exists x. auto.
  - destruct (Prisma.updateOrder id data rest) as [[o1 r1]|] eqn:E1; [|discriminate].
    injection H as <- _. exact (IH _ _ eq_refl).
Qed.

Ltac case_request H :=
  repeat match type of H with
         | context [match ?x with _ => _ end] => destruct x eqn:?
         end;
  simpl in H; try discriminate H.

Ltac after_replacement rt :=
  match goal with
  | Hc : computeLines _ _ = _, Hcl : createLines _ _ _ = _,
    Hu : Prisma.updateOrder _ _ _ = Some (?o, _) |- _ =>
      simpl in Hcl, Hu;
      pose proof (fun Hd => replaced_lines _ _ _ _ _ _ _ Hd Hcl Hu) as Hlines;
      specialize (Hlines (fun x => eq_refl));
      pose proof (updateOrder_In _ _ _ _ _ Hu) as Hin;
      destruct (updateOrder_result _ _ _ _ _ Hu) as [x [_ Hx]];
      assert (HC : headerConsistent rt o /\ Forall (lineConsistent rt) (Order.lines o))
        by (eapply computed_consistent with (callback := putLine rt);
            [ apply putLine_consistent | reflexivity | reflexivity | exact Hc
            | rewrite Hx; reflexivity | rewrite Hx; reflexivity
            | rewrite Hx; reflexivity | exact Hlines ])
  end.




(** A replacement of the lines is three writes without a transaction: when
    the last one, the update of the header, is refused (here the status is
    [null]), the answer is an error, the lines are already replaced and the
    header still holds the totals of the old lines. *)
Lemma line_replacement_is_not_atomic :
  let st := withSalesOrders emptyStore [sampleOrder "so1" "SO-00001" "DRAFT"] in
  let body := PutBody.mk (Some [numericLine 2 100 18]) JS.undefined None None
                JS.null JS.undefined in
  let resp_st := SalesOrderById.PUT exampleRuntime (exampleEnv 1000 "") admin "so1" body st in
  code (fst resp_st) = 500%nat
  /\ map (fun o => (Order.totalAmount o, sumLineTotals o)) (salesOrders (snd resp_st))
     = [(0%float, 236%float)].
Proof. vm_compute. repeat split. Qed.

(** ** Binary arithmetic and rounding *)

(** C6 (counterexample).  One unit at 0.5 with 1% tax: in decimal
    arithmetic the tax is 0.005, which rounds half-up to 0.01 at two
    decimals; the code stores the float 5764607523034235 * 2^-60, a little
    above 0.005, which is the rounded decimal tax at no number of decimals
    from 0 to 12.  And three units at 0.1 have the subtotal
    0.30000000000000004, not 0.3. *)
Lemma C6_tax_is_binary_and_not_rounded :
  let tax := snd (fst (postLine exampleRuntime (numericLine 1 0.5 1))) in
  exactQ tax = Some (5764607523034235 # 1152921504606846976)
  /\ Qeq (decimalLineTax 2 1 (1 # 2) 1) (1 # 100)
  /\ ~ Qeq (5764607523034235 # 1152921504606846976) (1 # 100)
  /\ forallb (fun digits =>
                negb (Qeq_bool (5764607523034235 # 1152921504606846976)
                        (decimalLineTax digits 1 (1 # 2) 1)))
       (seq 0 13) = true
  /\ PrimFloat.eqb
       (fst (fst (postLine exampleRuntime (numericLine 3 0.1 0)))) 0.3 = false.
Proof.
  repeat split; try (vm_compute; reflexivity).
  intros H. vm_compute in H. discriminate H.
Qed.

(** C6 (amended).  Monetary values are JS numbers: the line subtotal is the
    binary64 product quantity*unitPrice, the line tax the binary64 value
    lineSubtotal*(taxRate/100), computed once per line and stored without
    any rounding to a number of decimals, the line total their binary64
    sum; the header subtotal and taxAmount are the running binary64 sums of
    these line values in the order of the lines, with no rounding of their
    own. *)
Theorem C6_binary_arithmetic_without_rounding (rt : Runtime) (xs : list Line.t) :
  let sub := fun x =>
    (parseDecimal rt (Line.quantity x) * parseDecimal rt (Line.unitPrice x))%float in
  let taxPut := fun x => (sub x * (parseDecimal rt (Line.taxRate x) / 100))%float in
  let taxPost := fun x =>
    (sub x * (parseDecimal rt (JS.or (Line.taxRate x) (JS.number 0)) / 100))%float in
  (fst (computeLines (putLine rt) xs) = (fsum (map sub xs), fsum (map taxPut xs))
   /\ map Line.taxAmount (snd (computeLines (putLine rt) xs))
      = map (fun x => JS.number (taxPut x)) xs
   /\ map Line.lineTotal (snd (computeLines (putLine rt) xs))
      = map (fun x => JS.number (sub x + taxPut x)%float) xs)
  /\ (fst (computeLines (postLine rt) xs) = (fsum (map sub xs), fsum (map taxPost xs))
      /\ map Line.taxAmount (snd (computeLines (postLine rt) xs))
         = map (fun x => JS.number (taxPost x)) xs
      /\ map Line.lineTotal (snd (computeLines (postLine rt) xs))
         = map (fun x => JS.number (sub x + taxPost x)%float) xs).
Proof.
  intros sub taxPut taxPost.
  rewrite !computeLines_spec. simpl fst; simpl snd. rewrite !map_map.
  repeat split; reflexivity.
Qed.

(** ** The fields of a generated document *)



Lemma copyLineOrDefault_id (l : Line.t) :
  JS.truthy (Line.description l) = true ->
  JS.truthy (Line.taxRate l) = true ->
  JS.truthy (Line.taxAmount l) = true ->
  copyLineOrDefault l = l.
Proof.
  destruct l; unfold copyLineOrDefault, JS.or; simpl.
  intros -> -> ->. reflexivity.
Qed.




(** ** Cancellation and the status graph *)

(** [DELETE] refuses an order that a document refers to, and changes nothing. *)
Lemma purchase_DELETE_refused (rt : Runtime) (user : option User.t) (id : string)
  (st : Store) :
  authorizedAdmin rt user = true ->
  (0 < Prisma.countBySource id (vendorBills st))%nat ->
  PurchaseOrderById.DELETE rt user id st
  = (json (ErrorJson "Cannot delete purchase order with linked bills") 400, st).
Proof.
  intros Ha Hc. unfold PurchaseOrderById.DELETE. rewrite Ha. simpl.
  apply Nat.ltb_lt in Hc. rewrite Hc. reflexivity.
Qed.

Lemma sales_DELETE_refused (rt : Runtime) (user : option User.t) (id : string)
  (st : Store) :
  authorizedAdmin rt user = true ->
  (0 < Prisma.countBySource id (invoices st))%nat ->
  SalesOrderById.DELETE rt user id st
  = (json (ErrorJson "Cannot delete sales order with linked invoices") 400, st).
Proof.
  intros Ha Hc. unfold SalesOrderById.DELETE. rewrite Ha. simpl.
  apply Nat.ltb_lt in Hc. rewrite Hc. reflexivity.
Qed.

(** [DELETE] succeeds only when no document refers to the order, and then
    the order is CANCELLED. *)
Lemma purchase_DELETE_success (rt : Runtime) (user : option User.t) (id : string)
  (st : Store) :
  payload (fst (PurchaseOrderById.DELETE rt user id st)) = SuccessJson ->
  Prisma.countBySource id (vendorBills st) = 0%nat
  /\ exists o, Prisma.findOrder id (purchaseOrders st) = Some o
               /\ In (setStatus (fun _ => "CANCELLED") o)
                     (purchaseOrders (snd (PurchaseOrderById.DELETE rt user id st))).
Proof.
  intros H. unfold PurchaseOrderById.DELETE in *. case_request H.
  split.
  - match goal with Hb : (0 <? _)%nat = false |- _ => apply Nat.ltb_ge in Hb; lia end.
  - match goal with
    | Hu : Prisma.updateOrder _ _ _ = Some _ |- _ =>
        pose proof (updateOrder_In _ _ _ _ _ Hu) as Hin;
        destruct (updateOrder_result _ _ _ _ _ Hu) as [x [Hx ->]]
    end.
    exists x. simpl. auto.
Qed.

Lemma sales_DELETE_success (rt : Runtime) (user : option User.t) (id : string)
  (st : Store) :
  payload (fst (SalesOrderById.DELETE rt user id st)) = SuccessJson ->
  Prisma.countBySource id (invoices st) = 0%nat
  /\ exists o, Prisma.findOrder id (salesOrders st) = Some o
               /\ In (setStatus (fun _ => "CANCELLED") o)
                     (salesOrders (snd (SalesOrderById.DELETE rt user id st))).
Proof.
  intros H. unfold SalesOrderById.DELETE in *. case_request H.
  split.
  - match goal with Hb : (0 <? _)%nat = false |- _ => apply Nat.ltb_ge in Hb; lia end.
  - match goal with
    | Hu : Prisma.updateOrder _ _ _ = Some _ |- _ =>
        pose proof (updateOrder_In _ _ _ _ _ Hu) as Hin;
        destruct (updateOrder_result _ _ _ _ _ Hu) as [x [Hx ->]]
    end.
    exists x. simpl. auto.
Qed.

(** C3 (the code departs from the claim).  A purchase order confirmed by
    its vendor has a vendor bill.  [DELETE] on it is refused with status
    400 and changes nothing; but the status update that the list page
    sends for its Cancel button, [PUT] with [{status: 'CANCELLED'}],
    answers 200 and the order is CANCELLED while the bill stays.  The same
    holds for a sales order with its invoice, through [PATCH]. *)
Theorem C3_status_update_cancels_despite_linked_document :
  (map Order.status (purchaseOrders confirmedPurchase) = ["CONFIRMED"]
   /\ Prisma.countBySource "po1" (vendorBills confirmedPurchase) = 1%nat
   /\ PurchaseOrderById.DELETE exampleRuntime admin "po1" confirmedPurchase
      = (json (ErrorJson "Cannot delete purchase order with linked bills") 400,
         confirmedPurchase)
   /\ let resp_st := PurchaseOrderById.PUT exampleRuntime (exampleEnv 3000 "") admin "po1"
                       (statusOnly "CANCELLED") confirmedPurchase in
      code (fst resp_st) = 200%nat
      /\ map Order.status (purchaseOrders (snd resp_st)) = ["CANCELLED"]
      /\ vendorBills (snd resp_st) = vendorBills confirmedPurchase)
  /\ (Prisma.countBySource "so1" (invoices confirmedSale) = 1%nat
      /\ SalesOrderById.DELETE exampleRuntime admin "so1" confirmedSale
         = (json (ErrorJson "Cannot delete sales order with linked invoices") 400,
            confirmedSale)
      /\ let resp_st := SalesOrderById.PATCH exampleRuntime (exampleEnv 3000 "") admin "so1"
                          (JS.str "CANCELLED") confirmedSale in
         code (fst resp_st) = 200%nat
         /\ map Order.status (salesOrders (snd resp_st)) = ["CANCELLED"]
         /\ invoices (snd resp_st) = invoices confirmedSale).
Proof. vm_compute. repeat split. Qed.

(** The vendor's confirmation goes through only for an order that is SENT,
    and leaves it CONFIRMED. *)
Lemma vendor_confirm_only_sent (env : Env) (user : option User.t) (id : string)
  (st : Store) (updated : Order.t) (message : string) :
  payload (fst (VendorConfirm.POST env user id st)) = ConfirmJson updated message ->
  exists o, Prisma.findOrder id (purchaseOrders st) = Some o
            /\ Order.status o = "SENT"
            /\ updated = setStatus (fun _ => "CONFIRMED") o
            /\ In updated (purchaseOrders (snd (VendorConfirm.POST env user id st))).
Proof.
  intros H. unfold VendorConfirm.POST in *. case_request H. injection H as -> _.
  match goal with
  | Hu : Prisma.updateOrder _ _ _ = Some _ |- _ =>
      pose proof (updateOrder_In _ _ _ _ _ Hu) as Hin;
      destruct (updateOrder_result _ _ _ _ _ Hu) as [x [Hx ->]]
  end.
  match goal with
  | Hs : negb (String.eqb (Order.status ?o) "SENT") = false |- _ =>
      apply negb_false_iff in Hs; apply String.eqb_eq in Hs;
      exists o; repeat split; auto; congruence
  end.
Qed.

Lemma updateOrder_found (id : string) (data : Order.t -> Order.t)
  (os : list Order.t) (o : Order.t) :
  Prisma.findOrder id os = Some o ->
  exists os', Prisma.updateOrder id data os = Some (data o, os') /\ In (data o) os'.
Proof.
  unfold Prisma.findOrder.
  induction os as [|x rest IH]; simpl; [discriminate|].
  destruct (String.eqb (Order.id x) id).
  - intros H; injection H as ->. eexists. split; [reflexivity|left; reflexivity].
  - intros H. destruct (IH H) as [os' [-> Hin]].
    eexists. split; [reflexivity|right; exact Hin].
Qed.

(** The status update writes the status of the body, whatever the current
    status is and whatever documents refer to the order. *)
Lemma sales_PATCH_sets_status (rt : Runtime) (env : Env) (user : option User.t)
  (id s : string) (st : Store) (o : Order.t) :
  authorizedAdmin rt user = true ->
  Prisma.findOrder id (salesOrders st) = Some o ->
  exists st',
    SalesOrderById.PATCH rt env user id (JS.str s) st
    = (json (OrderJson (setStatus (fun _ => s) o)) 200, st')
    /\ In (setStatus (fun _ => s) o) (salesOrders st').
Proof.
  intros Ha Hf. unfold SalesOrderById.PATCH. rewrite Ha. simpl.
  destruct (updateOrder_found id (setStatus (fun _ => s)) _ _ Hf) as [os' [-> Hin]].
  eexists. split; [reflexivity|]. simpl.
  destruct (String.eqb s "CONFIRMED"); exact Hin.
Qed.

Lemma purchase_PUT_sets_status (rt : Runtime) (env : Env) (user : option User.t)
  (id s : string) (st : Store) (o : Order.t) :
  authorizedAdmin rt user = true ->
  Prisma.findOrder id (purchaseOrders st) = Some o ->
  exists st',
    PurchaseOrderById.PUT rt env user id (statusOnly s) st
    = (json (OrderJson (setStatus (fun _ => s) o)) 200, st')
    /\ In (setStatus (fun _ => s) o) (purchaseOrders st').
Proof.
  intros Ha Hf. unfold PurchaseOrderById.PUT. rewrite Ha. simpl.
  destruct (updateOrder_found id (simpleUpdate (fun _ => s) (statusOnly s)) _ _ Hf)
    as [os' [-> Hin]].
  assert (E : simpleUpdate (fun _ => s) (statusOnly s) o = setStatus (fun _ => s) o)
    by (destruct o; reflexivity).
  rewrite E in *.
  eexists. split; [reflexivity|]. simpl.
  destruct (String.eqb s "CONFIRMED"); exact Hin.
Qed.

(** C4 (the code departs from the claim).  The status update of an admin
    does not look at the current status: a DRAFT sales order is CONFIRMED
    by [PATCH] and gets its invoice, and a CANCELLED one is put back to
    DRAFT, two edges that the graph does not have.  The confirmation route
    of the vendor does check: it refuses a DRAFT order with "Only sent
    orders can be confirmed". *)
Theorem C4_status_update_ignores_current_status :
  (let st := withSalesOrders emptyStore [sampleOrder "so1" "SO-00001" "DRAFT"] in
   let resp_st := SalesOrderById.PATCH exampleRuntime (exampleEnv 1000 "") admin "so1"
                    (JS.str "CONFIRMED") st in
   code (fst resp_st) = 200%nat
   /\ map Order.status (salesOrders (snd resp_st)) = ["CONFIRMED"]
   /\ map Doc.number (invoices (snd resp_st)) = ["INV-00001"]
   /\ allowedTransition "DRAFT" "CONFIRMED" = false)
  /\ (let st := withSalesOrders emptyStore [sampleOrder "so1" "SO-00001" "CANCELLED"] in
      let resp_st := SalesOrderById.PATCH exampleRuntime (exampleEnv 1000 "") admin "so1"
                       (JS.str "DRAFT") st in
      code (fst resp_st) = 200%nat
      /\ map Order.status (salesOrders (snd resp_st)) = ["DRAFT"]
      /\ allowedTransition "CANCELLED" "DRAFT" = false)
  /\ (let st := withPurchaseOrders emptyStore [sampleOrder "po1" "PO-00001" "DRAFT"] in
      VendorConfirm.POST (exampleEnv 1000 "") (Some (User.mk "VENDOR" (Some "c1"))) "po1" st
      = (json (ErrorJson "Only sent orders can be confirmed") 400, st)).
Proof. vm_compute. repeat split. Qed.

(** ** The price rule of products *)





(** Two prices sent as strings are compared as text: a sale price "9" is
    not below a purchase price "10". *)
Lemma string_prices_compare_as_text (rt : Runtime) :
  lessThan rt (JS.str "9") (JS.str "10") = false
  /\ lessThan rt (JS.str "10") (JS.str "9") = true.
Proof. split; reflexivity. Qed.


(** ** The payment ledger *)

Lemma fold_right_add_from (c : Z) (xs : list Z) :
  fold_right Z.add c xs = fold_right Z.add 0 xs + c.
Proof. induction xs as [|x rest IH]; simpl; [reflexivity|rewrite IH; lia]. Qed.

Lemma paidTo_app (id : string) (ps : list Ledger.Payment) (p : Ledger.Payment) :
  Ledger.paidTo id (ps ++ [p])
  = Ledger.paidTo id ps + (if String.eqb (Ledger.documentId p) id then Ledger.amount p else 0).
Proof.
  unfold Ledger.paidTo. rewrite filter_app, map_app, fold_right_app.
  rewrite fold_right_add_from. f_equal. simpl.
  destruct (String.eqb (Ledger.documentId p) id); simpl; lia.
Qed.

Lemma findDocument_unique (id : string) (ds : list Ledger.Document) (d : Ledger.Document) :
  NoDup (map Ledger.docId ds) -> In d ds -> Ledger.docId d = id ->
  Ledger.findDocument id ds = Some d.
Proof.
  unfold Ledger.findDocument.
  induction ds as [|x rest IH]; simpl; intros Hnd Hin Hid; [tauto|].
  inversion Hnd as [|? ? Hn Hr]; subst.
  destruct Hin as [->|Hin].
  - rewrite String.eqb_refl. reflexivity.
  - destruct (String.eqb (Ledger.docId x) (Ledger.docId d)) eqn:E.
    + apply String.eqb_eq in E. exfalso. apply Hn. rewrite E. apply in_map. exact Hin.
    + auto.
Qed.

Lemma pay_docId (id : string) (a : Z) (d : Ledger.Document) :
  Ledger.docId (Ledger.pay id a d) = Ledger.docId d.
Proof. unfold Ledger.pay. destruct (String.eqb (Ledger.docId d) id); reflexivity. Qed.

(** What an accepted payment is and does. *)
Lemma recordPayment_accepted (p : Ledger.Payment) (l l' : Ledger.t) :
  Ledger.recordPayment p l = inr l' ->
  0 < Ledger.amount p
  /\ (exists d, Ledger.findDocument (Ledger.documentId p) (Ledger.documents l) = Some d
                /\ Ledger.docStatus d <> Ledger.CANCELLED
                /\ Ledger.amount p <= Ledger.totalAmount d - Ledger.paidAmount d)
  /\ Ledger.payments l' = (Ledger.payments l ++ [p])%list
  /\ Ledger.documents l'
     = map (Ledger.pay (Ledger.documentId p) (Ledger.amount p)) (Ledger.documents l).
Proof.
  unfold Ledger.recordPayment.
  destruct (Ledger.amount p <=? 0) eqn:Ea; [discriminate|].
  destruct (Ledger.findDocument _ _) as [d|] eqn:Ef; [|discriminate].
  destruct (Ledger.isCancelled d) eqn:Ec; [discriminate|].
  destruct (Ledger.totalAmount d - Ledger.paidAmount d <? Ledger.amount p) eqn:Ed;
    [discriminate|].
  intros H; injection H as <-. simpl.
  apply Z.leb_gt in Ea. apply Z.ltb_ge in Ed.
  repeat split; auto.
  exists d. repeat split; auto.
  unfold Ledger.isCancelled in Ec. destruct (Ledger.docStatus d); congruence.
Qed.

Lemma recordPayment_consistent (p : Ledger.Payment) (l l' : Ledger.t) :
  consistentLedger l -> Ledger.recordPayment p l = inr l' -> consistentLedger l'.
Proof.
  intros [Hnd Hall] H.
  destruct (recordPayment_accepted p l l' H) as [Ha [[d0 [Hf [_ Hdue]]] [Hp Hd]]].
  split.
  - rewrite Hd, map_map. rewrite (map_ext _ Ledger.docId); [exact Hnd|].
    intros d. apply pay_docId.
  - intros d' Hin. rewrite Hd in Hin. apply in_map_iff in Hin.
    destruct Hin as [d [<- Hin]].
    destruct (Hall d Hin) as [Hsum Hle].
    rewrite pay_docId, Hp, paidTo_app. unfold Ledger.pay.
    rewrite (String.eqb_sym (Ledger.documentId p)).
    destruct (String.eqb (Ledger.docId d) (Ledger.documentId p)) eqn:E; simpl.
    + apply String.eqb_eq in E.
      rewrite (findDocument_unique _ _ d Hnd Hin E) in Hf. injection Hf as <-.
      lia.
    + lia.
Qed.

Lemma recordAll_consistent (ps : list Ledger.Payment) (l : Ledger.t) :
  consistentLedger l -> consistentLedger (Ledger.recordAll ps l).
Proof.
  unfold Ledger.recordAll. revert l.
  induction ps as [|p rest IH]; simpl; intros l H; [exact H|].
  apply IH. destruct (Ledger.recordPayment p l) as [e|l'] eqn:E; [exact H|].
  eapply recordPayment_consistent; eauto.
Qed.

(** C8.  On the ledger of section 4.5: a payment is accepted only when its
    amount is positive, its document exists and is not CANCELLED, and the
    amount does not exceed totalAmount - paidAmount; an accepted payment is
    appended to the payments and added to the paidAmount of its document,
    in the one step; a payment above the amount due is rejected with the
    validation error "exceeds amount due", a rejection being a result
    without a ledger; after any run of payment requests the payments of
    every document sum to its paidAmount and to at most its totalAmount;
    and every positive payment on a fully paid document is rejected. *)
Theorem C8_record_payment (l : Ledger.t) (ps : list Ledger.Payment) (p : Ledger.Payment) :
  consistentLedger l ->
  (forall l', Ledger.recordPayment p l = inr l' ->
     0 < Ledger.amount p
     /\ (exists d, Ledger.findDocument (Ledger.documentId p) (Ledger.documents l) = Some d
                   /\ Ledger.docStatus d <> Ledger.CANCELLED
                   /\ Ledger.amount p <= Ledger.totalAmount d - Ledger.paidAmount d)
     /\ Ledger.payments l' = (Ledger.payments l ++ [p])%list
     /\ Ledger.documents l'
        = map (Ledger.pay (Ledger.documentId p) (Ledger.amount p)) (Ledger.documents l))
  /\ (forall d, Ledger.findDocument (Ledger.documentId p) (Ledger.documents l) = Some d ->
        Ledger.docStatus d <> Ledger.CANCELLED ->
        0 < Ledger.amount p ->
        Ledger.totalAmount d - Ledger.paidAmount d < Ledger.amount p ->
        Ledger.recordPayment p l = inl (Ledger.ValidationError, "exceeds amount due"))
  /\ (forall d, In d (Ledger.documents (Ledger.recordAll ps l)) ->
        Ledger.paidTo (Ledger.docId d) (Ledger.payments (Ledger.recordAll ps l))
        = Ledger.paidAmount d
        /\ Ledger.paidTo (Ledger.docId d) (Ledger.payments (Ledger.recordAll ps l))
           <= Ledger.totalAmount d)
  /\ (forall d, Ledger.findDocument (Ledger.documentId p) (Ledger.documents l) = Some d ->
        Ledger.paidAmount d = Ledger.totalAmount d ->
        0 < Ledger.amount p ->
        exists message, Ledger.recordPayment p l = inl (Ledger.ValidationError, message)).
Proof.
  intros Hc. split; [|split; [|split]].
  - intros l'. apply recordPayment_accepted.
  - intros d Hf Hs Ha Hd. unfold Ledger.recordPayment. rewrite Hf.
    apply Z.leb_gt in Ha. rewrite Ha.
    assert (Ledger.isCancelled d = false) as ->
      by (unfold Ledger.isCancelled; destruct (Ledger.docStatus d); congruence).
    apply Z.ltb_lt in Hd. rewrite Hd. reflexivity.
  - intros d Hin. destruct (recordAll_consistent ps l Hc) as [_ Hall].
    destruct (Hall d Hin) as [Hsum Hle]. rewrite <- Hsum. split; [reflexivity|exact Hle].
  - intros d Hf Hfull Ha. unfold Ledger.recordPayment. rewrite Hf.
    apply Z.leb_gt in Ha. rewrite Ha.
    destruct (Ledger.isCancelled d); [eexists; reflexivity|].
    assert ((Ledger.totalAmount d - Ledger.paidAmount d <? Ledger.amount p) = true) as ->
      by (apply Z.ltb_lt; apply Z.leb_gt in Ha; lia).
    eexists; reflexivity.
Qed.

Lemma C8_witness :
  consistentLedger bill236
  /\ map Ledger.paidAmount (Ledger.documents (Ledger.recordAll [payBill 236; payBill 1] bill236))
     = [236]
  /\ forall d,
       In d (Ledger.documents (Ledger.recordAll [payBill 236; payBill 1] bill236)) ->
       Ledger.paidTo (Ledger.docId d)
         (Ledger.payments (Ledger.recordAll [payBill 236; payBill 1] bill236))
       <= Ledger.totalAmount d.
Proof.
  assert (Hc : consistentLedger bill236).
  { split; simpl.
    - repeat constructor. simpl. tauto.
    - intros d [<-|[]]. simpl. unfold Ledger.paidTo. simpl. lia. }
  split; [exact Hc|]. split; [reflexivity|].
  intros d Hin.
  destruct (C8_record_payment bill236 [payBill 236; payBill 1] (payBill 1) Hc)
    as [_ [_ [H _]]].
  apply (H d Hin).
Defined.

(** ** The auto-analytical rule engine *)

Lemma mostSpecific_In (rs : list AutoAnalytical.Rule) (r : AutoAnalytical.Rule) :
  AutoAnalytical.mostSpecific rs = Some r -> In r rs.
Proof.
  revert r. induction rs as [|x rest IH]; simpl; intros r H; [discriminate|].
  destruct (AutoAnalytical.mostSpecific rest) as [b|].
  - destruct (AutoAnalytical.specificity x <? AutoAnalytical.specificity b)%nat;
      injection H as <-; auto.
  - injection H as <-. auto.
Qed.

Lemma mostSpecific_max (rs : list AutoAnalytical.Rule) (r : AutoAnalytical.Rule) :
  AutoAnalytical.mostSpecific rs = Some r ->
  forall r', In r' rs ->
             (AutoAnalytical.specificity r' <= AutoAnalytical.specificity r)%nat.
Proof.
  revert r. induction rs as [|x rest IH]; simpl; intros r H r' Hin; [tauto|].
  destruct (AutoAnalytical.mostSpecific rest) as [b|] eqn:E.
  - destruct (AutoAnalytical.specificity x <? AutoAnalytical.specificity b)%nat eqn:El;
      injection H as <-.
    + apply Nat.ltb_lt in El. destruct Hin as [<-|Hin]; [lia|]. apply (IH b eq_refl _ Hin).
    + apply Nat.ltb_ge in El. destruct Hin as [<-|Hin]; [lia|].
      pose proof (IH b eq_refl _ Hin). lia.
  - injection H as <-. destruct Hin as [<-|Hin]; [lia|].
    destruct rest; [destruct Hin|]. simpl in E.
    destruct (AutoAnalytical.mostSpecific rest) as [b|];
      [destruct (_ <? _)%nat|]; discriminate.
Qed.

Lemma mostSpecific_nonempty (rs : list AutoAnalytical.Rule) :
  rs <> [] -> exists r, AutoAnalytical.mostSpecific rs = Some r.
Proof.
  destruct rs as [|x rest]; [congruence|]. intros _. simpl.
  destruct (AutoAnalytical.mostSpecific rest) as [b|];
    [destruct (_ <? _)%nat|]; eexists; reflexivity.
Qed.

(** C9.  On the rule engine of section 4.2: an explicit account on the line
    is returned as it is; without one, when some active rule (autoApply,
    status CONFIRMED) matches, the account returned is that of a rule of
    the list that is active, matches, and has the highest specificity among
    the active matching rules; when no active rule matches, the product's
    default account is returned, null when it has none; and in scenario 8
    rule B wins over rule A whatever their order. *)
Theorem C9_resolve_analytical_account
  (rules : list AutoAnalytical.Rule) (line : AutoAnalytical.LineInfo)
  (counterpartyId : string) :
  (forall a, AutoAnalytical.lineAccount line = Some a ->
             AutoAnalytical.resolveAnalyticalAccount rules line counterpartyId = Some a)
  /\ (AutoAnalytical.lineAccount line = None ->
      (exists r0, In r0 rules /\ AutoAnalytical.active r0 = true
                  /\ AutoAnalytical.matches line counterpartyId r0 = true) ->
      exists r,
        AutoAnalytical.resolveAnalyticalAccount rules line counterpartyId
        = Some (AutoAnalytical.analyticalAccountId r)
        /\ In r rules
        /\ AutoAnalytical.active r = true
        /\ AutoAnalytical.matches line counterpartyId r = true
        /\ forall r', In r' rules -> AutoAnalytical.active r' = true ->
                      AutoAnalytical.matches line counterpartyId r' = true ->
                      (AutoAnalytical.specificity r' <= AutoAnalytical.specificity r)%nat)
  /\ (AutoAnalytical.lineAccount line = None ->
      (forall r, In r rules ->
                 AutoAnalytical.active r && AutoAnalytical.matches line counterpartyId r
                 = false) ->
      AutoAnalytical.resolveAnalyticalAccount rules line counterpartyId
      = AutoAnalytical.productDefaultAccount line)
  /\ (AutoAnalytical.resolveAnalyticalAccount [ruleA; ruleB] lineOfCategoryC "P"
      = Some "account-B"
      /\ AutoAnalytical.resolveAnalyticalAccount [ruleB; ruleA] lineOfCategoryC "P"
         = Some "account-B"
      /\ AutoAnalytical.specificity ruleA = 1%nat
      /\ AutoAnalytical.specificity ruleB = 2%nat).
Proof.
  split; [|split; [|split]].
  - intros a Ha. unfold AutoAnalytical.resolveAnalyticalAccount. rewrite Ha. reflexivity.
  - intros Hn [r0 [Hin0 [Ha0 Hm0]]].
    unfold AutoAnalytical.resolveAnalyticalAccount. rewrite Hn.
    assert (Hc : In r0 (AutoAnalytical.candidates rules line counterpartyId))
      by (apply filter_In; rewrite Ha0, Hm0; auto).
    destruct (mostSpecific_nonempty (AutoAnalytical.candidates rules line counterpartyId))
      as [r Hr]; [intros E; rewrite E in Hc; exact Hc|].
    rewrite Hr. exists r.
    pose proof (mostSpecific_In _ _ Hr) as Hin.
    apply filter_In in Hin. destruct Hin as [Hin Hb].
    apply andb_true_iff in Hb. destruct Hb as [Ha Hm].
    repeat split; auto.
    intros r' Hin' Ha' Hm'. apply (mostSpecific_max _ _ Hr).
    apply filter_In. rewrite Ha', Hm'. auto.
  - intros Hn Hnone. unfold AutoAnalytical.resolveAnalyticalAccount. rewrite Hn.
    assert (AutoAnalytical.candidates rules line counterpartyId = []) as ->.
    { unfold AutoAnalytical.candidates.
      induction rules as [|x rest IH]; simpl; [reflexivity|].
      rewrite (Hnone x (or_introl eq_refl)). apply IH.
      intros r Hr. apply Hnone. right. exact Hr. }
    reflexivity.
  - vm_compute. repeat split.
Qed.

Lemma C9_witness :
  AutoAnalytical.lineAccount lineOfCategoryC = None
  /\ exists r,
       AutoAnalytical.resolveAnalyticalAccount [ruleA; ruleB] lineOfCategoryC "P"
       = Some (AutoAnalytical.analyticalAccountId r)
       /\ In r [ruleA; ruleB]
       /\ (AutoAnalytical.specificity ruleA <= AutoAnalytical.specificity r)%nat.
Proof.
  split; [reflexivity|].
  destruct (C9_resolve_analytical_account [ruleA; ruleB] lineOfCategoryC "P")
    as [_ [H _]].
  destruct (H eq_refl
              (ex_intro _ ruleA (conj (or_introl eq_refl) (conj eq_refl eq_refl))))
    as [r [E [Hin [_ [_ Hmax]]]]].
  exists r. split; [exact E|]. split; [exact Hin|].
  apply Hmax; [left; reflexivity|reflexivity|reflexivity].
Defined.


(** * Further properties of the code *)

(** ** Document numbers: printing and reading back *)

Lemma digits_cons (c : ascii) (s : string) (acc : option Z) (k : Z) :
  Str.digit c = Some k ->
  Str.digits acc (String c s)
  = Str.digits (Some (10 * match acc with Some a => a | None => 0 end + k)) s.
Proof. intros H. simpl. rewrite H. reflexivity. Qed.

Ltac digit_step :=
  cbn [NilEmpty.string_of_uint Pos.of_uint_acc Pos.of_uint];
  match goal with
  | |- Str.digits _ (String ?c _) = _ =>
      let k := eval vm_compute in (Str.digit c) in
      match k with
      | Some ?v => rewrite (digits_cons c _ _ v eq_refl)
      end
  end.

Lemma digits_acc_pos (d : Decimal.uint) (a : positive) :
  Str.digits (Some (Z.pos a)) (NilEmpty.string_of_uint d)
  = Some (Z.pos (Pos.of_uint_acc d a)).
Proof.
  revert a. induction d; intros a; [reflexivity|..]; digit_step;
    rewrite <- IHd; f_equal; f_equal; lia.
Qed.

Lemma digits_acc_zero (d : Decimal.uint) :
  Str.digits (Some 0) (NilEmpty.string_of_uint d) = Some (Z.of_N (Pos.of_uint d)).
Proof.
  induction d; [reflexivity|..]; digit_step;
    [exact IHd|..]; cbn [Z.of_N]; rewrite <- digits_acc_pos; reflexivity.
Qed.

Lemma digits_none (d : Decimal.uint) :
  d <> Decimal.Nil ->
  Str.digits None (NilEmpty.string_of_uint d) = Some (Z.of_N (Pos.of_uint d)).
Proof.
  destruct d; intros H; [congruence|..]; digit_step;
    [apply digits_acc_zero|..]; cbn [Z.of_N]; rewrite <- digits_acc_pos; reflexivity.
Qed.

(** The decimal print of a natural number is a non-empty string of digits
    that reads back as the number. *)
Lemma ofZ_digits (n : Z) :
  0 <= n ->
  allDigits (Str.ofZ n) = true
  /\ Str.ofZ n <> ""
  /\ Str.digits None (Str.ofZ n) = Some n
  /\ Str.digits (Some 0) (Str.ofZ n) = Some n.
Proof.
  intros Hn. unfold Str.ofZ.
  destruct n as [|p|p]; [repeat split; try reflexivity; discriminate| |lia].
  cbn [Z.to_int NilZero.string_of_int].
  pose proof (Unsigned.to_uint_nonnil p) as Hnn.
  pose proof (Unsigned.of_to p) as Hof.
  unfold NilZero.string_of_uint.
  destruct (Pos.to_uint p) eqn:E; [congruence|..].
  all: rewrite <- E in *.
  all: assert (Hd : allDigits (NilEmpty.string_of_uint (Pos.to_uint p)) = true)
      by (clear; induction (Pos.to_uint p); simpl; auto).
  all: repeat split; [exact Hd | rewrite E; discriminate
                     | rewrite digits_none by exact Hnn; rewrite Hof; reflexivity
                     | rewrite digits_acc_zero; rewrite Hof; reflexivity].
Qed.

Lemma concat_repeat_S (c : ascii) (m : nat) :
  String.concat "" (repeat (String c "") (S m))
  = String c (String.concat "" (repeat (String c "") m)).
Proof. destruct m; reflexivity. Qed.

Lemma padStart_zeros (k : nat) (s : string) :
  exists m : nat,
    Str.padStart k "0" s = (String.concat "" (repeat "0" m) ++ s)%string
    /\ m = (k - String.length s)%nat.
Proof. eexists. split; reflexivity. Qed.

Lemma allDigits_zeros (m : nat) (s : string) :
  allDigits s = true ->
  allDigits (String.concat "" (repeat "0" m) ++ s) = true.
Proof.
  intros H. induction m as [|m IH]; [exact H|].
  rewrite concat_repeat_S. simpl. exact IH.
Qed.

Lemma digits_zeros (m : nat) (s : string) (n : Z) :
  Str.digits None s = Some n ->
  Str.digits (Some 0) s = Some n ->
  Str.digits None (String.concat "" (repeat "0" m) ++ s) = Some n.
Proof.
  intros H1 H2. destruct m as [|m]; [exact H1|].
  rewrite concat_repeat_S. cbn [append].
  rewrite (digits_cons "0" _ None 0 eq_refl). simpl.
  induction m as [|m IH]; [exact H2|].
  rewrite concat_repeat_S. cbn [append].
  rewrite (digits_cons "0" _ (Some 0) 0 eq_refl). exact IH.
Qed.

Lemma digit_char (c : ascii) (k : Z) :
  Str.digit c = Some k ->
  Str.isSpace c = false /\ c <> "-"%char /\ c <> "+"%char
  /\ c <> "x"%char /\ c <> "X"%char.
Proof.
  unfold Str.digit, Str.isSpace.
  destruct ((48 <=? nat_of_ascii c)%nat && (nat_of_ascii c <=? 57)%nat) eqn:E;
    [|discriminate].
  intros _. apply andb_true_iff in E. destruct E as [E1 E2].
  apply Nat.leb_le in E1. apply Nat.leb_le in E2.
  repeat split.
  - apply orb_false_iff. split; [apply Nat.eqb_neq; lia|].
    apply andb_false_iff. right. apply Nat.leb_gt. lia.
  - intros ->. vm_compute in E1, E2. lia.
  - intros ->. vm_compute in E1, E2. lia.
  - intros ->. vm_compute in E1, E2. lia.
  - intros ->. vm_compute in E1, E2. lia.
Qed.

(** On a non-empty string of digits [parseInt] is the decimal reading. *)
Lemma parseInt_allDigits (s : string) :
  allDigits s = true -> s <> "" -> Str.parseInt s = Str.digits None s.
Proof.
  intros Hd Hne. destruct s as [|c r]; [congruence|].
  simpl in Hd. destruct (Str.digit c) as [k|] eqn:Ec; [|discriminate].
  destruct (digit_char c k Ec) as [Hs [Hm [Hp _]]].
  unfold Str.parseInt. cbn [Str.trimStart]. rewrite Hs.
  assert (Hu : Str.unsignedInt (String c r) = Str.digits None (String c r)).
  { unfold Str.unsignedInt. destruct r as [|c2 r2].
    - destruct c as [[] [] [] [] [] [] [] []]; reflexivity.
    - simpl in Hd. destruct (Str.digit c2) as [k2|] eqn:Ec2; [|discriminate].
      destruct (digit_char c2 k2 Ec2) as [_ [_ [_ [Hx HX]]]].
      destruct c as [[] [] [] [] [] [] [] []]; try reflexivity;
        destruct c2 as [[] [] [] [] [] [] [] []]; try reflexivity; congruence. }
  destruct c as [[] [] [] [] [] [] [] []]; try exact Hu; congruence.
Qed.

Lemma parseInt_padded (k : nat) (n : Z) :
  0 <= n -> Str.parseInt (Str.padStart k "0" (Str.ofZ n)) = Some n.
Proof.
  intros Hn. destruct (ofZ_digits n Hn) as [Hd [Hne [H1 H2]]].
  destruct (padStart_zeros k (Str.ofZ n)) as [m [-> _]].
  rewrite parseInt_allDigits.
  - apply digits_zeros; assumption.
  - apply allDigits_zeros. exact Hd.
  - destruct m as [|m]; [exact Hne|]. rewrite concat_repeat_S. discriminate.
Qed.











(** ** The sequence generator over several calls *)

Lemma updateSequence_lookup (name : string) (data : Sequence.t -> Sequence.t)
  (qs qs' : list Sequence.t) (q' : Sequence.t) :
  (forall q, Sequence.name (data q) = Sequence.name q) ->
  Prisma.updateSequence name data qs = Some (q', qs') ->
  forall name',
    Prisma.findSequence name' qs'
    = if String.eqb name' name then Some q' else Prisma.findSequence name' qs.
Proof.
  intros Hd. unfold Prisma.findSequence. revert qs' q'.
  induction qs as [|x rest IH]; simpl; intros qs' q' H name'; [discriminate|].
  destruct (String.eqb (Sequence.name x) name) eqn:E.
  - injection H as <- <-. simpl. rewrite Hd.
    apply String.eqb_eq in E. rewrite E, (String.eqb_sym name name').
    destruct (String.eqb name' name); reflexivity.
  - destruct (Prisma.updateSequence name data rest) as [[q1 r1]|] eqn:E1; [|discriminate].
    injection H as <- <-. simpl.
    destruct (String.eqb (Sequence.name x) name') eqn:E2.
    + apply String.eqb_eq in E2. subst name'. rewrite E. reflexivity.
    + apply (IH _ _ eq_refl).
Qed.

Lemma increment_lookup (name : string) (qs qs' : list Sequence.t) (q' : Sequence.t) :
  Prisma.updateSequence name
    (fun q => Sequence.mk (Sequence.name q) (Sequence.prefix q)
                (Sequence.nextNumber q + 1) (Sequence.padding q)) qs = Some (q', qs') ->
  forall name',
    Prisma.findSequence name' qs'
    = if String.eqb name' name then Some q' else Prisma.findSequence name' qs.
Proof. apply updateSequence_lookup. reflexivity. Qed.

Lemma findSequence_app (name : string) (qs : list Sequence.t) (q : Sequence.t) :
  Prisma.findSequence name (qs ++ [q])
  = match Prisma.findSequence name qs with
    | Some x => Some x
    | None => if String.eqb (Sequence.name q) name then Some q else None
    end.
Proof.
  unfold Prisma.findSequence. induction qs as [|x rest IH]; simpl; [reflexivity|].
  destruct (String.eqb (Sequence.name x) name); [reflexivity|exact IH].
Qed.

(** One call: the identifier issued is made of the upcoming prefix, number
    and padding, and the upcoming number is one more afterwards. *)
Lemma getNextSequence_step (name prefix : string) (n padding : Z)
  (qs : list Sequence.t) :
  upcoming name qs = (prefix, n, padding) ->
  fst (getNextSequence name qs) = formatSequence prefix n padding
  /\ upcoming name (snd (getNextSequence name qs)) = (prefix, n + 1, padding).
Proof.
  unfold upcoming, getNextSequence.
  destruct (Prisma.findSequence name qs) as [q|] eqn:Ef.
  - intros H; injection H as <- <- <-.
    destruct (updateSequence_found name
                (fun q => Sequence.mk (Sequence.name q) (Sequence.prefix q)
                            (Sequence.nextNumber q + 1) (Sequence.padding q)) qs q Ef)
      as [qs' E].
    rewrite E. cbn [fst snd].
    rewrite (increment_lookup _ _ _ _ E name).
    rewrite String.eqb_refl.
    cbn [Sequence.prefix Sequence.nextNumber Sequence.padding].
    rewrite Z.add_simpl_r. split; reflexivity.
  - intros H.
    assert (Hq : exists d, (match SEQUENCE_DEFAULTS name with
                            | Some d => d
                            | None => (Str.slice0 4 (Str.toUpperCase name), 5)
                            end) = d /\ d = (prefix, padding) /\ n = 1).
    { destruct (SEQUENCE_DEFAULTS name) as [[p k]|]; injection H as <- <- <-;
        eexists; repeat split. }
    destruct Hq as [d [-> [-> ->]]]. cbn [fst snd].
    pose proof (findSequence_app_new name qs (Sequence.mk name prefix 1 padding) Ef eq_refl)
      as Hf.
    destruct (updateSequence_found name
                (fun q => Sequence.mk (Sequence.name q) (Sequence.prefix q)
                            (Sequence.nextNumber q + 1) (Sequence.padding q)) _ _ Hf)
      as [qs' E].
    rewrite E. cbn [fst snd].
    rewrite (increment_lookup _ _ _ _ E name).
    rewrite String.eqb_refl.
    cbn [Sequence.prefix Sequence.nextNumber Sequence.padding].
    split; reflexivity.
Qed.

Lemma append_inj_l (p a b : string) : (p ++ a = p ++ b)%string -> a = b.
Proof.
  induction p as [|c p IH]; simpl; intros H; [exact H|].
  injection H as H. exact (IH H).
Qed.

Lemma formatSequence_inj (prefix : string) (padding a b : Z) :
  0 <= a -> 0 <= b ->
  formatSequence prefix a padding = formatSequence prefix b padding -> a = b.
Proof.
  unfold formatSequence. intros Ha Hb H.
  apply append_inj_l in H. apply append_inj_l in H.
  pose proof (parseInt_padded (Z.to_nat padding) a Ha) as Pa.
  pose proof (parseInt_padded (Z.to_nat padding) b Hb) as Pb.
  rewrite H in Pa. congruence.
Qed.




Lemma getNextSequence_other (name other : string) (qs : list Sequence.t) :
  other <> name ->
  Prisma.findSequence other (snd (getNextSequence name qs))
  = Prisma.findSequence other qs.
Proof.
  intros Hne. apply String.eqb_neq in Hne.
  unfold getNextSequence.
  set (data := fun q => Sequence.mk (Sequence.name q) (Sequence.prefix q)
                          (Sequence.nextNumber q + 1) (Sequence.padding q)).
  destruct (Prisma.findSequence name qs) as [q|] eqn:Ef.
  - destruct (updateSequence_found name data qs q Ef) as [qs' E]. rewrite E.
    cbn [snd]. rewrite (increment_lookup _ _ _ _ E other).
    rewrite Hne. reflexivity.
  - set (fresh := Sequence.mk name _ 1 _).
    pose proof (findSequence_app_new name qs fresh Ef eq_refl) as Hf.
    destruct (updateSequence_found name data _ _ Hf) as [qs' E]. rewrite E.
    cbn [snd]. rewrite (increment_lookup _ _ _ _ E other).
    rewrite Hne, findSequence_app.
    destruct (Prisma.findSequence other qs); [reflexivity|].
    cbn [Sequence.name fresh]. rewrite String.eqb_sym, Hne. reflexivity.
Qed.

(** X4.  A call of [getNextSequence] touches the sequence it names only:
    the row of every other name is found unchanged afterwards, and the
    number that name will get next is the same as before. *)
Theorem getNextSequence_keeps_other_sequences
  (name other : string) (qs : list Sequence.t) :
  other <> name ->
  Prisma.findSequence other (snd (getNextSequence name qs))
  = Prisma.findSequence other qs
  /\ upcoming other (snd (getNextSequence name qs)) = upcoming other qs.
Proof.
  intros Hne. unfold upcoming.
  rewrite (getNextSequence_other name other qs Hne). split; reflexivity.
Qed.

Lemma getNextSequence_keeps_witness :
  "product" <> "contact"
  /\ Prisma.findSequence "product"
       (snd (getNextSequence "contact" (snd (getNextSequence "product" []))))
     = Some (Sequence.mk "product" "PROD" 2 5).
Proof.
  split; [discriminate|].
  rewrite (proj1 (getNextSequence_keeps_other_sequences "contact" "product" _
                    ltac:(discriminate))).
  reflexivity.
Defined.

(** ** What the handlers leave alone *)

(** X5.  A request to a handler guarded by [isAdmin] from nobody, or from a
    user who is not an admin, is answered 401 "Unauthorized" and changes
    nothing, not even a sequence counter. *)
Theorem unauthorized_request_changes_nothing
  (rt : Runtime) (env : Env) (r : Request) (st : Store) (user : option User.t) :
  adminRequest r = Some user ->
  authorizedAdmin rt user = false ->
  handle rt env r st = (json (ErrorJson "Unauthorized") 401, st).
Proof.
  intros Hr Ha.
  destruct r; simpl in Hr; try discriminate Hr; injection Hr as ->; simpl;
    [ unfold SalesOrderById.PATCH | unfold SalesOrderById.PUT
    | unfold SalesOrderById.DELETE | unfold PurchaseOrders.POST
    | unfold PurchaseOrderById.PUT | unfold PurchaseOrderById.DELETE
    | unfold Products.POST | unfold ProductById.PUT ];
    rewrite Ha; reflexivity.
Qed.

Lemma unauthorized_request_witness :
  adminRequest (PurchasePOST vendor1 (orderBody [numericLine 2 100 18])) = Some vendor1
  /\ authorizedAdmin exampleRuntime vendor1 = false
  /\ snd (handle exampleRuntime (exampleEnv 1000 "po1")
            (PurchasePOST vendor1 (orderBody [numericLine 2 100 18])) emptyStore)
     = emptyStore.
Proof.
  split; [reflexivity|]. split; [reflexivity|].
  rewrite (unauthorized_request_changes_nothing exampleRuntime (exampleEnv 1000 "po1")
             (PurchasePOST vendor1 (orderBody [numericLine 2 100 18])) emptyStore vendor1
             eq_refl eq_refl).
  reflexivity.
Defined.

Lemma deleteLines_absent (id : string) (os : list Order.t) :
  Prisma.findOrder id os = None -> deleteLines id os = os.
Proof.
  unfold Prisma.findOrder, deleteLines.
  induction os as [|x rest IH]; simpl; [reflexivity|].
  destruct (String.eqb (Order.id x) id); [discriminate|].
  intros H. rewrite (IH H). reflexivity.
Qed.

Lemma updateOrder_absent (id : string) (data : Order.t -> Order.t) (os : list Order.t) :
  Prisma.updateOrder id data os = None -> Prisma.findOrder id os = None.
Proof.
  unfold Prisma.findOrder.
  induction os as [|x rest IH]; simpl; [reflexivity|].
  destruct (String.eqb (Order.id x) id); [discriminate|].
  destruct (Prisma.updateOrder id data rest) as [[? ?]|]; [discriminate|auto].
Qed.

Ltac little_written H :=
  cbn [fst snd payload json] in H; try discriminate H; clear H;
  cbn [fst snd invoices vendorBills products salesOrders purchaseOrders sequences
       withSequences withSalesOrders withInvoices withPurchaseOrders withVendorBills
       withProducts];
  (split; [reflexivity|]); (split; [reflexivity|]); (split; [reflexivity|]);
  (split; [intros [Hc|Hc]; try discriminate Hc; split; reflexivity
          |intros Hc; try discriminate Hc; reflexivity]).

(** X6.  A request answered with an error leaves invoices, vendor bills and
    products as they were; it leaves the orders as they were unless it is a
    [PUT] that carries lines, and the sequences unless it is a creation,
    which draws its number before it can fail. *)
Theorem error_response_writes_little
  (rt : Runtime) (env : Env) (r : Request) (st : Store) (e : string) :
  payload (fst (handle rt env r st)) = ErrorJson e ->
  let st' := snd (handle rt env r st) in
  invoices st' = invoices st
  /\ vendorBills st' = vendorBills st
  /\ products st' = products st
  /\ (replacesLines r = false \/ drawsNumber r = true ->
      salesOrders st' = salesOrders st /\ purchaseOrders st' = purchaseOrders st)
  /\ (drawsNumber r = false -> sequences st' = sequences st).
Proof.
  intros H. cbv zeta.
  remember (handle rt env r st) as res eqn:Hres.
  destruct r; cbn [handle replacesLines drawsNumber] in *;
    [ unfold SalesOrderById.PATCH in Hres | unfold SalesOrderById.PUT in Hres
    | unfold SalesOrderById.DELETE in Hres | unfold PurchaseOrders.POST in Hres
    | unfold PurchaseOrderById.PUT in Hres | unfold PurchaseOrderById.DELETE in Hres
    | unfold VendorConfirm.POST in Hres | unfold Products.POST in Hres
    | unfold ProductById.PUT in Hres | subst res; discriminate H ].
  8: { destruct (negb (authorizedAdmin rt user)); [subst res; little_written H|].
       destruct (lessThan rt _ _); [subst res; little_written H|].
       destruct (getNextSequence "product" (sequences st)) as [code qs].
       destruct (ProductBody.purchasePrice body), (ProductBody.salePrice body);
         cbn [Prisma.decimalData] in Hres;
         try destruct (createFails env || _)%bool;
         subst res; little_written H. }
  all: repeat match type of Hres with
              | context [match ?x with _ => _ end] => destruct x eqn:?
              end;
    subst res; little_written H.
Qed.

Lemma error_response_witness :
  products (snd (handle exampleRuntime
                   {| now := 1000; newId := "po1"; createFails := true |}
                   (PurchasePOST admin (orderBody [numericLine 2 100 18])) emptyStore))
  = products emptyStore.
Proof.
  destruct (error_response_writes_little exampleRuntime
              {| now := 1000; newId := "po1"; createFails := true |}
              (PurchasePOST admin (orderBody [numericLine 2 100 18])) emptyStore
              "Failed to create purchase order" eq_refl)
    as (_ & _ & H & _).
  exact H.
Defined.

(** What the product handlers write besides the products: nothing, or one
    step of the sequence of the product codes. *)
Lemma product_handlers_write (rt : Runtime) (env : Env) (user : option User.t)
  (id : string) (body : ProductBody.t) (st : Store) :
  (salesOrders (snd (Products.POST rt env user body st)) = salesOrders st
   /\ purchaseOrders (snd (Products.POST rt env user body st)) = purchaseOrders st
   /\ (sequences (snd (Products.POST rt env user body st)) = sequences st
       \/ sequences (snd (Products.POST rt env user body st))
          = snd (getNextSequence "product" (sequences st))))
  /\ salesOrders (snd (ProductById.PUT rt user id body st)) = salesOrders st
  /\ purchaseOrders (snd (ProductById.PUT rt user id body st)) = purchaseOrders st
  /\ sequences (snd (ProductById.PUT rt user id body st)) = sequences st.
Proof.
  split.
  - remember (Products.POST rt env user body st) as res eqn:Hres.
    unfold Products.POST in Hres.
    destruct (negb (authorizedAdmin rt user)); [subst res; simpl; auto|].
    destruct (lessThan rt _ _); [subst res; simpl; auto|].
    destruct (getNextSequence "product" (sequences st)) as [code qs].
    destruct (ProductBody.purchasePrice body), (ProductBody.salePrice body);
      cbn [Prisma.decimalData] in Hres;
      try destruct (createFails env || _)%bool;
      subst res; simpl; auto.
  - remember (ProductById.PUT rt user id body st) as res eqn:Hres.
    unfold ProductById.PUT in Hres.
    repeat match type of Hres with
           | context [match ?x with _ => _ end] => destruct x eqn:?
           end;
      subst res; simpl; auto.
Qed.

(** ** Deletion and confirmation *)

(** An update rewrites the first row with the identifier, in place. *)
Lemma updateOrder_split (id : string) (data : Order.t -> Order.t)
  (os os' : list Order.t) (o' : Order.t) :
  Prisma.updateOrder id data os = Some (o', os') ->
  exists before o after,
    os = (before ++ o :: after)%list
    /\ Order.id o = id
    /\ (forall x, In x before -> Order.id x <> id)
    /\ o' = data o
    /\ os' = (before ++ data o :: after)%list.
Proof.
  revert os' o'. induction os as [|x rest IH]; simpl; intros os' o' H; [discriminate|].
  destruct (String.eqb (Order.id x) id) eqn:E.
  - injection H as <- <-. exists [], x, rest. apply String.eqb_eq in E.
    repeat split; auto; intros y [].
  - destruct (Prisma.updateOrder id data rest) as [[o1 r1]|] eqn:E1; [|discriminate].
    injection H as <- <-.
    destruct (IH _ _ eq_refl) as (before & o & after & -> & Hid & Hb & -> & ->).
    exists (x :: before), o, after. simpl.
    split; [reflexivity|]. split; [exact Hid|]. split; [|split; reflexivity].
    intros y [<-|Hy]; [apply String.eqb_neq; exact E|auto].
Qed.

Lemma findOrder_updated (id : string) (data : Order.t -> Order.t)
  (os os' : list Order.t) (o' : Order.t) :
  (forall x, Order.id (data x) = Order.id x) ->
  Prisma.updateOrder id data os = Some (o', os') ->
  Prisma.findOrder id os' = Some o'.
Proof.
  intros Hd. unfold Prisma.findOrder.
  revert os' o'. induction os as [|x rest IH]; simpl; intros os' o' H; [discriminate|].
  destruct (String.eqb (Order.id x) id) eqn:E.
  - injection H as <- <-. simpl. rewrite Hd, E. reflexivity.
  - destruct (Prisma.updateOrder id data rest) as [[o1 r1]|] eqn:E1; [|discriminate].
    injection H as <- <-. simpl. rewrite E. exact (IH _ _ eq_refl).
Qed.

(** X7.  [DELETE] on an order deletes no row.  When it succeeds, the table
    of orders is the old one with the status of the first row of this
    identifier set to CANCELLED, its lines and totals kept, and every other
    table is as it was; this holds for purchase orders and for sales
    orders. *)
Theorem DELETE_cancels_in_place
  (rt : Runtime) (user : option User.t) (id : string) (st : Store) :
  (payload (fst (PurchaseOrderById.DELETE rt user id st)) = SuccessJson ->
   exists before o after,
     purchaseOrders st = (before ++ o :: after)%list
     /\ Order.id o = id
     /\ (forall x, In x before -> Order.id x <> id)
     /\ snd (PurchaseOrderById.DELETE rt user id st)
        = withPurchaseOrders st
            (before ++ setStatus (fun _ => "CANCELLED") o :: after)%list)
  /\ (payload (fst (SalesOrderById.DELETE rt user id st)) = SuccessJson ->
      exists before o after,
        salesOrders st = (before ++ o :: after)%list
        /\ Order.id o = id
        /\ (forall x, In x before -> Order.id x <> id)
        /\ snd (SalesOrderById.DELETE rt user id st)
           = withSalesOrders st
               (before ++ setStatus (fun _ => "CANCELLED") o :: after)%list).
Proof.
  split; intros H.
  - unfold PurchaseOrderById.DELETE in *. case_request H.
    match goal with
    | Hu : Prisma.updateOrder _ _ _ = Some _ |- _ =>
        destruct (updateOrder_split _ _ _ _ _ Hu)
          as (before & o & after & E1 & E2 & E3 & _ & ->)
    end.
    exists before, o, after. simpl. auto.
  - unfold SalesOrderById.DELETE in *. case_request H.
    match goal with
    | Hu : Prisma.updateOrder _ _ _ = Some _ |- _ =>
        destruct (updateOrder_split _ _ _ _ _ Hu)
          as (before & o & after & E1 & E2 & E3 & _ & ->)
    end.
    exists before, o, after. simpl. auto.
Qed.

Lemma DELETE_cancels_witness :
  exists before o after,
    salesOrders (withSalesOrders emptyStore [openSalesOrder]) = (before ++ o :: after)%list
    /\ snd (SalesOrderById.DELETE exampleRuntime admin "so1"
              (withSalesOrders emptyStore [openSalesOrder]))
       = withSalesOrders (withSalesOrders emptyStore [openSalesOrder])
           (before ++ setStatus (fun _ => "CANCELLED") o :: after)%list.
Proof.
  destruct (proj2 (DELETE_cancels_in_place exampleRuntime admin "so1"
                     (withSalesOrders emptyStore [openSalesOrder])) eq_refl)
    as (before & o & after & H1 & _ & _ & H2).
  exists before, o, after. split; [exact H1|exact H2].
Defined.

(** X8.  [POST /api/vendor/orders/:id/confirm] answers 200 only to a user
    of role VENDOR whose contact is the vendor of the order and only when
    the order is SENT; with any other answer the store is as it was. *)
Theorem vendor_confirm_access
  (env : Env) (user : option User.t) (id : string) (st : Store) :
  (code (fst (VendorConfirm.POST env user id st)) = 200%nat ->
   exists u o,
     user = Some u
     /\ User.role u = "VENDOR"
     /\ User.contactId u = Some (Order.partyId o)
     /\ Prisma.findOrder id (purchaseOrders st) = Some o
     /\ Order.status o = "SENT")
  /\ (code (fst (VendorConfirm.POST env user id st)) <> 200%nat ->
      snd (VendorConfirm.POST env user id st) = st).
Proof.
  unfold VendorConfirm.POST.
  destruct user as [u|]; [|split; [discriminate|reflexivity]].
  destruct (String.eqb (User.role u) "VENDOR") eqn:Er; simpl;
    [|split; [discriminate|reflexivity]].
  destruct (User.contactId u) as [c|] eqn:Ec; [|split; [discriminate|reflexivity]].
  destruct (String.eqb c ""); [split; [discriminate|reflexivity]|].
  destruct (Prisma.findOrder id (purchaseOrders st)) as [o|] eqn:Ef;
    [|split; [discriminate|reflexivity]].
  destruct (String.eqb (Order.partyId o) c) eqn:Ep; simpl;
    [|split; [discriminate|reflexivity]].
  destruct (String.eqb (Order.status o) "SENT") eqn:Es; simpl;
    [|split; [discriminate|reflexivity]].
  destruct (Prisma.updateOrder id (setStatus (fun _ => "CONFIRMED")) (purchaseOrders st))
    as [[updated orders]|]; simpl; [|split; [discriminate|reflexivity]].
  split; [intros _|intros H; contradiction H; reflexivity].
  apply String.eqb_eq in Er, Ep, Es. subst c.
  exists u, o. auto.
Qed.

Lemma vendor_confirm_access_witness :
  snd (VendorConfirm.POST (exampleEnv 2000 "") admin "po1"
         (withPurchaseOrders emptyStore [setStatus (fun _ => "SENT") scenarioOrder]))
  = withPurchaseOrders emptyStore [setStatus (fun _ => "SENT") scenarioOrder].
Proof.
  apply (proj2 (vendor_confirm_access (exampleEnv 2000 "") admin "po1"
                  (withPurchaseOrders emptyStore
                     [setStatus (fun _ => "SENT") scenarioOrder]))).
  vm_compute. discriminate.
Defined.

(** X9.  An order confirmed by its vendor cannot be confirmed again: the
    same request on the resulting store is answered 400 and writes
    nothing, so no second bill can come from this route. *)
Theorem vendor_confirm_twice
  (env env' : Env) (user : option User.t) (id : string) (st : Store) :
  code (fst (VendorConfirm.POST env user id st)) = 200%nat ->
  VendorConfirm.POST env' user id (snd (VendorConfirm.POST env user id st))
  = (json (ErrorJson "Only sent orders can be confirmed") 400,
     snd (VendorConfirm.POST env user id st)).
Proof.
  intros H.
  assert (exists u c o orders,
             user = Some u
             /\ String.eqb (User.role u) "VENDOR" = true
             /\ User.contactId u = Some c
             /\ String.eqb c "" = false
             /\ String.eqb (Order.partyId o) c = true
             /\ Prisma.updateOrder id (setStatus (fun _ => "CONFIRMED")) (purchaseOrders st)
                = Some (setStatus (fun _ => "CONFIRMED") o, orders)
             /\ purchaseOrders (snd (VendorConfirm.POST env user id st)) = orders)
    as (u & c & o & orders & -> & Er & Ec & Ee & Ep & Hu & Hs).
  { unfold VendorConfirm.POST in *. case_request H.
    match goal with
    | Hu : Prisma.updateOrder _ _ _ = Some _ |- _ =>
        destruct (updateOrder_result _ _ _ _ _ Hu) as [x [Hx ->]]
    end.
    match goal with
    | Ho : Prisma.findOrder _ _ = Some ?o |- _ =>
        rewrite Hx in Ho; injection Ho as <-
    end.
    repeat match goal with
           | Hb : negb _ = false |- _ => apply negb_false_iff in Hb
           end.
    eexists _, _, x, _. repeat split; eauto. }
  pose proof (fun Hd => findOrder_updated _ _ _ _ _ Hd Hu) as Hf.
  specialize (Hf (fun x => eq_refl)).
  rewrite <- Hs in Hf.
  unfold VendorConfirm.POST at 1.
  rewrite Er, Ec, Ee, Hf. simpl. rewrite Ep. reflexivity.
Qed.

Lemma vendor_confirm_twice_witness :
  code (fst (VendorConfirm.POST (exampleEnv 3000 "") vendor1 "po1"
               (snd (VendorConfirm.POST (exampleEnv 2000 "") vendor1 "po1"
                       (withPurchaseOrders emptyStore
                          [setStatus (fun _ => "SENT") scenarioOrder])))))
  = 400%nat.
Proof.
  rewrite (vendor_confirm_twice (exampleEnv 2000 "") (exampleEnv 3000 "") vendor1 "po1"
             (withPurchaseOrders emptyStore [setStatus (fun _ => "SENT") scenarioOrder])
             eq_refl).
  reflexivity.
Defined.

(** ** The repair script *)

Lemma script_step_grows (env : Env) (snapshot bills : list Doc.t) (po : Order.t) (id : string) :
  (Prisma.countBySource id bills <= Prisma.countBySource id (scriptStep env snapshot bills po))%nat.
Proof.
  unfold scriptStep. destruct (_ =? 0)%nat; [|lia].
  rewrite insertDerived_count. lia.
Qed.

Lemma script_loop_grows (env : Env) (snapshot : list Doc.t)
  (pos : list Order.t) (bills : list Doc.t) (id : string) :
  (Prisma.countBySource id bills <= Prisma.countBySource id (fold_left (scriptStep env snapshot) pos bills))%nat.
Proof.
  revert bills. induction pos as [|po rest IH]; simpl; intros bills; [lia|].
  pose proof (script_step_grows env snapshot bills po id). pose proof (IH (scriptStep env snapshot bills po)). lia.
Qed.

Lemma script_loop_covers (env : Env) (snapshot : list Doc.t)
  (pos : list Order.t) (bills : list Doc.t) (po : Order.t) :
  createFails env = false ->
  (forall id, Prisma.countBySource id snapshot <= Prisma.countBySource id bills)%nat ->
  In po pos ->
  (0 < Prisma.countBySource (Order.id po) (fold_left (scriptStep env snapshot) pos bills))%nat.
Proof.
  intros Hf. revert bills.
  induction pos as [|x rest IH]; simpl; intros bills Hs Hin; [contradiction|].
  destruct Hin as [->|Hin].
  - pose proof (script_loop_grows env snapshot rest (scriptStep env snapshot bills po) (Order.id po)) as Hg.
    assert (0 < Prisma.countBySource (Order.id po) (scriptStep env snapshot bills po))%nat; [|lia].
    unfold scriptStep. destruct (_ =? 0)%nat eqn:E.
    + rewrite insertDerived_count, Hf, String.eqb_refl. lia.
    + apply Nat.eqb_neq in E. specialize (Hs (Order.id po)). lia.
  - apply IH; [|exact Hin].
    intros id. pose proof (script_step_grows env snapshot bills x id). specialize (Hs id). lia.
Qed.

Lemma script_loop_idle (env : Env) (snapshot : list Doc.t)
  (pos : list Order.t) (bills : list Doc.t) :
  (forall po, In po pos -> (0 < Prisma.countBySource (Order.id po) snapshot)%nat) ->
  fold_left (scriptStep env snapshot) pos bills = bills.
Proof.
  revert bills. induction pos as [|x rest IH]; simpl; intros bills H; [reflexivity|].
  rewrite IH; [|auto].
  unfold scriptStep. specialize (H x (or_introl eq_refl)).
  destruct (_ =? 0)%nat eqn:E; [|reflexivity].
  apply Nat.eqb_eq in E. lia.
Qed.

Lemma script_unfold (env : Env) (st : Store) :
  Script.createBillsForConfirmedPOs env st
  = withVendorBills st
      (fold_left (scriptStep env (vendorBills st))
         (filter (fun po => String.eqb (Order.status po) "CONFIRMED") (purchaseOrders st))
         (vendorBills st)).
Proof. reflexivity. Qed.

(** X10.  When the database accepts the insertions, after
    [createBillsForConfirmedPOs] every confirmed purchase order has a
    bill, the orders are as they were, and a second run, at any later time,
    writes nothing more. *)
Theorem script_repairs_and_is_idempotent (env env' : Env) (st : Store) :
  createFails env = false ->
  let st' := Script.createBillsForConfirmedPOs env st in
  (forall po, In po (purchaseOrders st) -> Order.status po = "CONFIRMED" ->
              (0 < Prisma.countBySource (Order.id po) (vendorBills st'))%nat)
  /\ purchaseOrders st' = purchaseOrders st
  /\ Script.createBillsForConfirmedPOs env' st' = st'.
Proof.
  intros Hf st'.
  assert (Hc : forall po, In po (purchaseOrders st) -> Order.status po = "CONFIRMED" ->
                          (0 < Prisma.countBySource (Order.id po) (vendorBills st'))%nat).
  { intros po Hin Hs. unfold st'. rewrite script_unfold. simpl.
    apply script_loop_covers; [exact Hf|intros; lia|].
    apply filter_In. split; [exact Hin|]. rewrite Hs. reflexivity. }
  split; [exact Hc|]. split; [reflexivity|].
  rewrite script_unfold, script_loop_idle.
  - unfold st'. rewrite script_unfold. reflexivity.
  - intros po Hin. apply filter_In in Hin. destruct Hin as [Hin Hs].
    apply String.eqb_eq in Hs. apply Hc; [exact Hin|exact Hs].
Qed.

Lemma script_repairs_witness :
  Script.createBillsForConfirmedPOs (exampleEnv 5000 "")
    (Script.createBillsForConfirmedPOs (exampleEnv 4000 "")
       (withPurchaseOrders emptyStore [setStatus (fun _ => "CONFIRMED") scenarioOrder]))
  = Script.createBillsForConfirmedPOs (exampleEnv 4000 "")
      (withPurchaseOrders emptyStore [setStatus (fun _ => "CONFIRMED") scenarioOrder]).
Proof.
  destruct (script_repairs_and_is_idempotent (exampleEnv 4000 "") (exampleEnv 5000 "")
              (withPurchaseOrders emptyStore [setStatus (fun _ => "CONFIRMED") scenarioOrder])
              eq_refl)
    as (_ & _ & H).
  exact H.
Defined.

(** ** Consistency of the whole store *)

Lemma deleteLines_fresh (id : string) (os : list Order.t) :
  ~ In id (map Order.id os) -> deleteLines id os = os.
Proof.
  unfold deleteLines. induction os as [|x rest IH]; simpl; intros H; [reflexivity|].
  destruct (String.eqb (Order.id x) id) eqn:E.
  - apply String.eqb_eq in E. tauto.
  - rewrite IH; [reflexivity|tauto].
Qed.

Lemma update_keeps (P : Order.t -> Prop) (id : string) (data : Order.t -> Order.t)
  (os os' : list Order.t) (o : Order.t) :
  (forall x, P x -> P (data x)) ->
  Forall P os ->
  Prisma.updateOrder id data os = Some (o, os') ->
  Forall P os'.
Proof.
  intros Hd HP Hu.
  destruct (updateOrder_split _ _ _ _ _ Hu) as (before & x & after & -> & _ & _ & _ & ->).
  apply Forall_app in HP. destruct HP as [H1 H2]. inversion H2; subst.
  apply Forall_app. split; [exact H1|]. constructor; auto.
Qed.

(** With identifiers as keys, the three writes of a replacement of the
    lines change one row of the table: the row of the order. *)
Lemma replacement_keeps (P : Order.t -> Prop) (id : string) (ls : list Line.t)
  (data : Order.t -> Order.t) (os os2 os3 : list Order.t) (o : Order.t) :
  NoDup (map Order.id os) ->
  Forall P os ->
  createLines id ls (deleteLines id os) = Some os2 ->
  Prisma.updateOrder id data os2 = Some (o, os3) ->
  P o ->
  Forall P os3.
Proof.
  intros Hnd HP H1 H2 Ho. unfold createLines in H1. revert os2 os3 Hnd HP H1 H2.
  induction os as [|x rest IH]; simpl; intros os2 os3 Hnd HP H1 H2; [discriminate|].
  inversion Hnd as [|? ? Hx Hrest]; subst. inversion HP as [|? ? Px Prest]; subst.
  destruct (String.eqb (Order.id x) id) eqn:E; simpl in H1.
  - rewrite E in H1. simpl in H1. injection H1 as <-.
    simpl in H2. rewrite E in H2. injection H2 as <- <-.
    apply String.eqb_eq in E. subst id.
    rewrite (deleteLines_fresh _ _ Hx).
    constructor; [exact Ho|exact Prest].
  - rewrite E in H1.
    destruct (Prisma.updateOrder id _ (deleteLines id rest)) as [[o1 r1]|] eqn:E1;
      simpl in H1; [|discriminate].
    injection H1 as <-. simpl in H2. rewrite E in H2.
    destruct (Prisma.updateOrder id data r1) as [[o2 r2]|] eqn:E2; [|discriminate].
    injection H2 as <- <-.
    constructor; [exact Px|].
    apply (IH r1 r2 Hrest Prest); [reflexivity|exact E2].
Qed.

Ltac keys_kept :=
  simpl in *;
  repeat match goal with
         | H : Prisma.updateOrder _ _ _ = Some _ |- _ =>
             apply updateOrder_ids in H; [|reflexivity]
         | H : createLines _ _ _ = Some _ |- _ => apply createLines_ids in H
         end;
  repeat match goal with
         | H : map Order.id _ = _ |- _ => rewrite H; clear H
         end;
  try rewrite deleteLines_ids; assumption.

Ltac rows_kept :=
  simpl in *; try assumption;
  match goal with
  | Hu : Prisma.updateOrder _ _ ?os = Some (_, ?l), HP : Forall _ ?os |- Forall _ ?l =>
      refine (update_keeps _ _ _ _ _ _ _ HP Hu); intros x Hx; exact Hx
  end.

Lemma sales_PATCH_consistent rt env user id status st :
  storeConsistent rt st ->
  storeConsistent rt (snd (SalesOrderById.PATCH rt env user id status st)).
Proof.
  intros [Hsk Hpk Hsc Hpc]. unfold SalesOrderById.PATCH.
  case_handler; (constructor; [try keys_kept|try keys_kept|try rows_kept|try rows_kept]).
Qed.

Lemma sales_DELETE_consistent rt user id st :
  storeConsistent rt st ->
  storeConsistent rt (snd (SalesOrderById.DELETE rt user id st)).
Proof.
  intros [Hsk Hpk Hsc Hpc]. unfold SalesOrderById.DELETE.
  case_handler; (constructor; [try keys_kept|try keys_kept|try rows_kept|try rows_kept]).
Qed.

Lemma purchase_DELETE_consistent rt user id st :
  storeConsistent rt st ->
  storeConsistent rt (snd (PurchaseOrderById.DELETE rt user id st)).
Proof.
  intros [Hsk Hpk Hsc Hpc]. unfold PurchaseOrderById.DELETE.
  case_handler; (constructor; [try keys_kept|try keys_kept|try rows_kept|try rows_kept]).
Qed.

Lemma vendor_POST_consistent rt env user id st :
  storeConsistent rt st ->
  storeConsistent rt (snd (VendorConfirm.POST env user id st)).
Proof.
  intros [Hsk Hpk Hsc Hpc]. unfold VendorConfirm.POST.
  case_handler; (constructor; [try keys_kept|try keys_kept|try rows_kept|try rows_kept]).
Qed.

Ltac rows_replaced :=
  match goal with
  | Hcl : createLines _ _ (deleteLines _ ?os) = Some ?os2,
    Hu : Prisma.updateOrder _ _ ?os2 = Some (?o, ?os3),
    HC : headerConsistent _ ?o /\ _,
    Hk : NoDup (map Order.id ?os),
    HP : Forall _ ?os |- _ =>
      pose proof (replacement_keeps _ _ _ _ _ _ _ _ Hk HP Hcl Hu HC) as Hrows
  end.

Lemma sales_PUT_consistent rt env user id body st :
  storeConsistent rt st ->
  (PutBody.lines body <> None ->
   code (fst (SalesOrderById.PUT rt env user id body st)) <> 500%nat) ->
  storeConsistent rt (snd (SalesOrderById.PUT rt env user id body st)).
Proof.
  intros [Hsk Hpk Hsc Hpc]. unfold SalesOrderById.PUT.
  destruct (negb (authorizedAdmin rt user)); [intros _; constructor; assumption|].
  destruct (PutBody.lines body) as [bodyLines|] eqn:Hl.
  - intros Hok. assert (Hl' : Some bodyLines <> None) by discriminate.
    specialize (Hok Hl'). clear Hl'. revert Hok.
    case_handler; intros Hok; try (exfalso; apply Hok; reflexivity).
    after_replacement rt. rows_replaced.
    constructor; [keys_kept|keys_kept|exact Hrows|assumption].
  - intros _.
    case_handler; (constructor; [try keys_kept|try keys_kept|try rows_kept|try rows_kept]).
Qed.

Lemma purchase_PUT_consistent rt env user id body st :
  storeConsistent rt st ->
  (PutBody.lines body <> None ->
   code (fst (PurchaseOrderById.PUT rt env user id body st)) <> 500%nat) ->
  storeConsistent rt (snd (PurchaseOrderById.PUT rt env user id body st)).
Proof.
  intros [Hsk Hpk Hsc Hpc]. unfold PurchaseOrderById.PUT.
  destruct (negb (authorizedAdmin rt user)); [intros _; constructor; assumption|].
  destruct (PutBody.lines body) as [bodyLines|] eqn:Hl.
  - intros Hok. assert (Hl' : Some bodyLines <> None) by discriminate.
    specialize (Hok Hl'). clear Hl'. revert Hok.
    case_handler; intros Hok; try (exfalso; apply Hok; reflexivity);
      after_replacement rt; rows_replaced;
      (constructor; [keys_kept|keys_kept|assumption|exact Hrows]).
  - intros _.
    case_handler; (constructor; [try keys_kept|try keys_kept|try rows_kept|try rows_kept]).
Qed.

Lemma purchase_POST_consistent rt env user body st :
  storeConsistent rt st ->
  storeConsistent rt (snd (PurchaseOrders.POST rt env user body st)).
Proof.
  intros [Hsk Hpk Hsc Hpc]. unfold PurchaseOrders.POST.
  case_handler; try (constructor; simpl; assumption).
  constructor; simpl; try assumption.
  - rewrite map_app. simpl.
    match goal with
    | H : (_ || _)%bool = false |- _ =>
        apply orb_false_iff in H; destruct H as [_ H]; simpl in H;
        apply existsb_id_false in H
    end.
    apply NoDup_app; [exact Hpk|repeat constructor; simpl; tauto|].
    intros x Hx [<-|[]]. auto.
  - apply Forall_app. split; [exact Hpc|]. constructor; [|constructor].
    match goal with
    | Hc : computeLines _ _ = _ |- _ =>
        eapply computed_consistent with (callback := postLine rt);
        [ apply postLine_consistent | reflexivity | reflexivity | exact Hc
        | reflexivity | reflexivity | reflexivity | reflexivity ]
    end.
Qed.

Lemma orders_consistent (rt : Runtime) (st st' : Store) :
  salesOrders st' = salesOrders st ->
  purchaseOrders st' = purchaseOrders st ->
  storeConsistent rt st -> storeConsistent rt st'.
Proof.
  intros Hs Hp [Hsk Hpk Hsc Hpc]. constructor; rewrite ?Hs, ?Hp; assumption.
Qed.

(** X11.  The store stays consistent as a whole: when identifiers are keys
    and every sales and purchase order holds the sums of its lines in its
    header, the same is true after any request, except after a [PUT] with
    lines that is answered 500, which may have replaced the lines without
    the header. *)
Theorem consistency_is_kept
  (rt : Runtime) (env : Env) (r : Request) (st : Store) :
  storeConsistent rt st ->
  (replacesLines r = true -> drawsNumber r = false ->
   code (fst (handle rt env r st)) <> 500%nat) ->
  storeConsistent rt (snd (handle rt env r st)).
Proof.
  intros Hst Hok. destruct r; simpl in *.
  - apply sales_PATCH_consistent; exact Hst.
  - apply sales_PUT_consistent; [exact Hst|].
    intros Hl. apply Hok; [|reflexivity].
    destruct (PutBody.lines body); [reflexivity|contradiction Hl; reflexivity].
  - apply sales_DELETE_consistent; exact Hst.
  - apply purchase_POST_consistent; exact Hst.
  - apply purchase_PUT_consistent; [exact Hst|].
    intros Hl. apply Hok; [|reflexivity].
    destruct (PutBody.lines body); [reflexivity|contradiction Hl; reflexivity].
  - apply purchase_DELETE_consistent; exact Hst.
  - apply vendor_POST_consistent; exact Hst.
  - destruct (product_handlers_write rt env user "" body st) as [(Hs & Hp & _) _].
    exact (orders_consistent rt _ _ Hs Hp Hst).
  - destruct (product_handlers_write rt env user id body st) as [_ (Hs & Hp & _)].
    exact (orders_consistent rt _ _ Hs Hp Hst).
  - destruct Hst. constructor; assumption.
Qed.

Lemma consistency_witness :
  storeConsistent exampleRuntime
    (snd (handle exampleRuntime (exampleEnv 2000 "")
            (SalesPUT admin "so1"
               (PutBody.mk (Some [numericLine 3 10 5]) JS.undefined None None
                  (JS.str "DRAFT") JS.undefined))
            (withSalesOrders emptyStore [openSalesOrder]))).
Proof.
  apply (consistency_is_kept exampleRuntime (exampleEnv 2000 "")
           (SalesPUT admin "so1"
              (PutBody.mk (Some [numericLine 3 10 5]) JS.undefined None None
                 (JS.str "DRAFT") JS.undefined))
           (withSalesOrders emptyStore [openSalesOrder])).
  - constructor; simpl.
    + constructor; [simpl; tauto|constructor].
    + constructor.
    + constructor; [|constructor].
      split; [vm_compute; repeat split|].
      constructor; [vm_compute; repeat split|constructor].
    + constructor.
  - intros _ _. vm_compute. discriminate.
Defined.

(** ** The read handlers *)

Lemma insertDesc_In (createdAt : Order.t -> Z) (o x : Order.t) (l : list Order.t) :
  In x (insertDesc createdAt o l) <-> x = o \/ In x l.
Proof.
  induction l as [|y rest IH]; simpl; [intuition congruence|].
  destruct (createdAt y <? createdAt o); simpl; [intuition congruence|].
  rewrite IH. intuition congruence.
Qed.

Lemma sortDesc_In (createdAt : Order.t -> Z) (x : Order.t) (l : list Order.t) :
  In x (sortDesc createdAt l) <-> In x l.
Proof.
  unfold sortDesc. induction l as [|y rest IH]; simpl; [tauto|].
  rewrite insertDesc_In, IH. intuition congruence.
Qed.

Lemma insertDesc_sorted (createdAt : Order.t -> Z) (o : Order.t) (l : list Order.t) :
  newestFirst createdAt l -> newestFirst createdAt (insertDesc createdAt o l).
Proof.
  unfold newestFirst. induction l as [|y rest IH]; simpl; intros H.
  - constructor; constructor.
  - inversion H as [|? ? Hs Hf]; subst.
    destruct (createdAt y <? createdAt o) eqn:E.
    + apply Z.ltb_lt in E. constructor; [exact H|].
      constructor; [lia|].
      eapply Forall_impl; [|exact Hf]. simpl. intros a Ha. lia.
    + apply Z.ltb_ge in E. constructor; [apply IH; exact Hs|].
      apply Forall_forall. intros a Ha. apply insertDesc_In in Ha.
      destruct Ha as [->|Ha]; [exact E|].
      rewrite Forall_forall in Hf. apply Hf. exact Ha.
Qed.

Lemma sortDesc_sorted (createdAt : Order.t -> Z) (l : list Order.t) :
  newestFirst createdAt (sortDesc createdAt l).
Proof.
  unfold sortDesc. induction l as [|y rest IH]; simpl.
  - constructor.
  - apply insertDesc_sorted. exact IH.
Qed.

(** X12.  [GET /api/vendor/orders] answers with orders only to a user of
    role VENDOR linked to a contact, and then with exactly the purchase
    orders of that contact, newest first and without their bills.  Without
    a status in the query these are the orders in one of the four visible
    statuses; a status in the query replaces that restriction, so with
    [?status=DRAFT] the vendor is sent the drafts. *)
Theorem vendor_sees_own_orders
  (createdAt : Order.t -> Z) (user : option User.t) (status : option string)
  (st : Store) (rows : list (Order.t * list Doc.t)) (p : option Pagination) :
  viewPayload (VendorOrders.GET createdAt user status st) = OrdersView rows p ->
  exists u c,
    user = Some u /\ User.role u = "VENDOR" /\ User.contactId u = Some c
    /\ (forall o, In o (map fst rows) <->
                  In o (purchaseOrders st)
                  /\ Order.partyId o = c
                  /\ match given status with
                     | Some s => Order.status o = s
                     | None => In (Order.status o) VendorOrders.visibleStatuses
                     end)
    /\ newestFirst createdAt (map fst rows)
    /\ Forall (fun row => snd row = []) rows
    /\ p = None.
Proof.
  unfold VendorOrders.GET. intros H.
  destruct user as [u|]; [|discriminate H].
  destruct (String.eqb (User.role u) "VENDOR") eqn:Er; simpl in H; [|discriminate H].
  destruct (User.contactId u) as [c|] eqn:Ec; [|discriminate H].
  destruct (String.eqb c ""); [discriminate H|].
  simpl in H. injection H as <- <-.
  apply String.eqb_eq in Er.
  exists u, c. rewrite map_map. simpl. rewrite map_id.
  split; [reflexivity|]. split; [exact Er|]. split; [exact Ec|].
  split; [|split; [apply sortDesc_sorted|split; [|reflexivity]]].
  - intros o. rewrite sortDesc_In, filter_In. unfold VendorOrders.selected.
    rewrite andb_true_iff, String.eqb_eq.
    destruct (given status) as [s|].
    + rewrite String.eqb_eq. tauto.
    + rewrite existsb_exists. split.
      * intros (Hin & Hp & s & Hs & He). apply String.eqb_eq in He.
        rewrite He. tauto.
      * intros (Hin & Hp & Hs). split; [exact Hin|]. split; [exact Hp|].
        exists (Order.status o). split; [exact Hs|apply String.eqb_refl].
  - apply Forall_forall. intros row Hin. apply in_map_iff in Hin.
    destruct Hin as [o [<- _]]. reflexivity.
Qed.

Lemma vendor_sees_own_orders_witness :
  exists rows,
    viewPayload (VendorOrders.GET byOrderDate vendor1 (Some "DRAFT")
                   (withPurchaseOrders emptyStore [scenarioOrder]))
    = OrdersView rows None
    /\ (In scenarioOrder (map fst rows) <->
        In scenarioOrder [scenarioOrder]
        /\ Order.partyId scenarioOrder = "v1"
        /\ Order.status scenarioOrder = "DRAFT").
Proof.
  eexists. split; [reflexivity|].
  destruct (vendor_sees_own_orders byOrderDate vendor1 (Some "DRAFT")
              (withPurchaseOrders emptyStore [scenarioOrder]) _ None eq_refl)
    as (u & c & Hu & _ & Hc & H & _).
  injection Hu as <-. injection Hc as <-.
  exact (H scenarioOrder).
Defined.

(** X13.  [GET /api/sales-orders/:id] shows an order only to a logged-in
    user, and to a user of role CUSTOMER only when the order is an order of
    the customer's own contact; the order shown is the one asked for, and
    the invoices sent with it are those, and only those, that refer to it. *)
Theorem sales_order_view_access
  (user : option User.t) (id : string) (st : Store) (o : Order.t) (docs : list Doc.t) :
  viewPayload (SalesOrderView.GET user id st) = OrderView o docs ->
  exists u,
    user = Some u
    /\ Prisma.findOrder id (salesOrders st) = Some o
    /\ Order.id o = id
    /\ (User.role u = "CUSTOMER" -> User.contactId u = Some (Order.partyId o))
    /\ (forall d, In d docs <->
                  In d (invoices st) /\ Doc.sourceOrderId d = Some id).
Proof.
  unfold SalesOrderView.GET. intros H.
  destruct user as [u|]; [|discriminate H].
  destruct (Prisma.findOrder id (salesOrders st)) as [order|] eqn:Ef; [|discriminate H].
  destruct (String.eqb (User.role u) "CUSTOMER" && _)%bool eqn:Ea; [discriminate H|].
  simpl in H. injection H as <- <-.
  assert (Hid : Order.id order = id).
  { unfold Prisma.findOrder in Ef. apply find_some in Ef.
    apply String.eqb_eq. tauto. }
  exists u. split; [reflexivity|]. split; [reflexivity|]. split; [exact Hid|].
  split.
  - intros Hr. apply andb_false_iff in Ea. destruct Ea as [Ea|Ea].
    + apply String.eqb_neq in Ea. contradiction.
    + apply negb_false_iff in Ea. destruct (User.contactId u) as [c|]; [|discriminate].
      apply String.eqb_eq in Ea. rewrite Ea. reflexivity.
  - intros d. unfold included. rewrite filter_In. unfold Prisma.refersTo.
    rewrite Hid. destruct (Doc.sourceOrderId d) as [x|].
    + rewrite String.eqb_eq. split; intros [H1 H2]; (split; [exact H1|congruence]).
    + split; intros [H1 H2]; discriminate.
Qed.

Lemma sales_order_view_witness :
  exists u,
    Some (User.mk "CUSTOMER" (Some "c1")) = Some u
    /\ (User.role u = "CUSTOMER" -> User.contactId u = Some (Order.partyId openSalesOrder)).
Proof.
  destruct (sales_order_view_access (Some (User.mk "CUSTOMER" (Some "c1"))) "so1"
              (withSalesOrders emptyStore [openSalesOrder]) openSalesOrder [] eq_refl)
    as (u & Hu & _ & _ & H & _).
  exists u. split; [exact Hu|exact H].
Defined.

(** ** Pagination *)

Lemma parseInt_ofZ (n : Z) : 0 <= n -> Str.parseInt (Str.ofZ n) = Some n.
Proof.
  intros Hn. destruct (ofZ_digits n Hn) as [Hd [Hne [H1 _]]].
  rewrite parseInt_allDigits; assumption.
Qed.

Lemma numberParam_ofZ (n : Z) (default : string) :
  0 <= n -> PurchaseOrderList.numberParam (Some (Str.ofZ n)) default = Some n.
Proof.
  intros Hn. unfold PurchaseOrderList.numberParam, given.
  destruct (ofZ_digits n Hn) as [_ [Hne _]].
  apply String.eqb_neq in Hne. rewrite Hne. apply parseInt_ofZ. exact Hn.
Qed.

Lemma firstn_add {A : Type} (a b : nat) (l : list A) :
  firstn (a + b) l = (firstn a l ++ firstn b (skipn a l))%list.
Proof.
  revert l. induction a as [|a IH]; intros l; [reflexivity|].
  destruct l as [|x l]; simpl; [destruct b; reflexivity|].
  rewrite IH. reflexivity.
Qed.

Lemma chunks_concat {A : Type} (size n : nat) (l : list A) :
  List.concat (map (fun i => firstn size (skipn (i * size) l)) (seq 0 n))
  = firstn (n * size) l.
Proof.
  induction n as [|n IH]; [reflexivity|].
  rewrite seq_S, map_app, concat_app, IH. simpl.
  rewrite app_nil_r, (Nat.add_comm size), firstn_add. reflexivity.
Qed.

(** One page of the list, asked for with a page number and a limit that
    are written in decimal. *)
Lemma page_orders (createdAt : Order.t -> Z) (u : User.t)
  (q : PurchaseOrderList.Query) (l : Z) (i : nat) (st : Store) :
  1 <= l ->
  PurchaseOrderList.ordersOf
    (PurchaseOrderList.GET createdAt (Some u) (pageQuery q (Z.of_nat i + 1) l) st)
  = firstn (Z.to_nat l)
      (skipn (i * Z.to_nat l)
         (sortDesc createdAt
            (filter (PurchaseOrderList.selected q) (purchaseOrders st)))).
Proof.
  intros Hl. unfold PurchaseOrderList.GET, pageQuery.
  cbn [PurchaseOrderList.pageParam PurchaseOrderList.limitParam].
  rewrite !numberParam_ofZ by lia.
  unfold skipTake.
  replace (Z.of_nat i + 1 - 1) with (Z.of_nat i) by lia.
  destruct (Z.of_nat i * l <? 0) eqn:E1; [apply Z.ltb_lt in E1; nia|].
  destruct (0 <=? l) eqn:E2; [|apply Z.leb_gt in E2; lia].
  unfold PurchaseOrderList.ordersOf. simpl.
  rewrite map_map. simpl. rewrite map_id.
  replace (Z.to_nat (Z.of_nat i * l)) with (i * Z.to_nat l)%nat by nia.
  reflexivity.
Qed.

(** X14.  With a limit of at least 1, the pages 1 to [totalPages] of
    [GET /api/purchase-orders], put in a row, are the selected orders,
    newest first, each order once and none left out; no page is longer
    than the limit. *)
Theorem pages_cover_the_list
  (createdAt : Order.t -> Z) (u : User.t) (q : PurchaseOrderList.Query)
  (l : Z) (st : Store) :
  1 <= l ->
  let rows := sortDesc createdAt
                (filter (PurchaseOrderList.selected q) (purchaseOrders st)) in
  exists n,
    ceilDiv (Z.of_nat (List.length rows)) l = Some (Z.of_nat n)
    /\ allPages createdAt (Some u) q l n st = rows
    /\ forall i,
         (List.length
            (PurchaseOrderList.ordersOf
               (PurchaseOrderList.GET createdAt (Some u)
                  (pageQuery q (Z.of_nat i + 1) l) st)) <= Z.to_nat l)%nat.
Proof.
  intros Hl rows.
  set (t := Z.of_nat (List.length rows)).
  assert (Hn : 0 <= - ((- t) / l)).
  { assert ((- t) / l <= 0); [|lia]. apply Z.div_le_upper_bound; lia. }
  exists (Z.to_nat (- ((- t) / l))). split; [|split].
  - unfold ceilDiv. destruct (l =? 0) eqn:E; [apply Z.eqb_eq in E; lia|].
    rewrite Z2Nat.id by exact Hn. reflexivity.
  - unfold allPages.
    rewrite (map_ext _ (fun i => firstn (Z.to_nat l) (skipn (i * Z.to_nat l) rows)))
      by (intros i; apply page_orders; exact Hl).
    rewrite chunks_concat. apply firstn_all2.
    pose proof (Z.mul_div_le (- t) l ltac:(lia)).
    unfold t in *. nia.
  - intros i. rewrite page_orders by exact Hl. apply firstn_le_length.
Qed.

Lemma pages_cover_witness :
  exists n,
    ceilDiv (Z.of_nat (List.length
               (sortDesc byOrderDate
                  (filter (PurchaseOrderList.selected
                             (PurchaseOrderList.Build_Query None None None None))
                     [scenarioOrder; setStatus (fun _ => "SENT") scenarioOrder;
                      setStatus (fun _ => "CONFIRMED") scenarioOrder])))) 2
    = Some (Z.of_nat n)
    /\ List.length
         (allPages byOrderDate vendor1
            (PurchaseOrderList.Build_Query None None None None) 2 n
            (withPurchaseOrders emptyStore
               [scenarioOrder; setStatus (fun _ => "SENT") scenarioOrder;
                setStatus (fun _ => "CONFIRMED") scenarioOrder]))
       = 3%nat.
Proof.
  destruct (pages_cover_the_list byOrderDate (User.mk "VENDOR" (Some "v1"))
              (PurchaseOrderList.Build_Query None None None None) 2
              (withPurchaseOrders emptyStore
                 [scenarioOrder; setStatus (fun _ => "SENT") scenarioOrder;
                  setStatus (fun _ => "CONFIRMED") scenarioOrder])
              ltac:(lia))
    as (n & H1 & H2 & _).
  exists n. split; [exact H1|].
  unfold vendor1. rewrite H2. reflexivity.
Defined.

(** ** Order numbers *)

Lemma updateOrder_numbers (id : string) (data : Order.t -> Order.t)
  (os os' : list Order.t) (o : Order.t) :
  (forall x, Order.orderNumber (data x) = Order.orderNumber x) ->
  Prisma.updateOrder id data os = Some (o, os') ->
  map Order.orderNumber os' = map Order.orderNumber os.
Proof.
  intros Hd Hu.
  destruct (updateOrder_split _ _ _ _ _ Hu) as (before & x & after & -> & _ & _ & _ & ->).
  rewrite !map_app. simpl. rewrite Hd. reflexivity.
Qed.

Lemma deleteLines_numbers (id : string) (os : list Order.t) :
  map Order.orderNumber (deleteLines id os) = map Order.orderNumber os.
Proof.
  unfold deleteLines. rewrite map_map. apply map_ext.
  intros o. destruct (String.eqb (Order.id o) id); reflexivity.
Qed.

Lemma createLines_numbers (id : string) (ls : list Line.t) (os os' : list Order.t) :
  createLines id ls os = Some os' ->
  map Order.orderNumber os' = map Order.orderNumber os.
Proof.
  unfold createLines.
  destruct (Prisma.updateOrder id _ os) as [[o r]|] eqn:E; simpl; [|discriminate].
  intros H; injection H as <-.
  eapply updateOrder_numbers; [|exact E]. reflexivity.
Qed.

Ltac numbers_kept :=
  simpl in *;
  repeat match goal with
         | H : Prisma.updateOrder _ _ _ = Some _ |- _ =>
             apply updateOrder_numbers in H; [|reflexivity]
         | H : createLines _ _ _ = Some _ |- _ => apply createLines_numbers in H
         end;
  repeat match goal with
         | H : map Order.orderNumber _ = _ |- _ => rewrite H; clear H
         end;
  try rewrite deleteLines_numbers; try reflexivity.

(** Every request but the creation of a purchase order leaves the numbers
    of the purchase orders and the counter of their sequence as they are. *)
Lemma numbers_untouched (rt : Runtime) (env : Env) (r : Request) (st : Store) :
  (forall user body, r <> PurchasePOST user body) ->
  map Order.orderNumber (purchaseOrders (snd (handle rt env r st)))
  = map Order.orderNumber (purchaseOrders st)
  /\ upcoming "purchase_order" (sequences (snd (handle rt env r st)))
     = upcoming "purchase_order" (sequences st).
Proof.
  intros Hr. destruct r; cbn [handle];
    [ unfold SalesOrderById.PATCH | unfold SalesOrderById.PUT
    | unfold SalesOrderById.DELETE | contradiction (Hr user body); reflexivity
    | unfold PurchaseOrderById.PUT | unfold PurchaseOrderById.DELETE
    | unfold VendorConfirm.POST | | | unfold Script.createBillsForConfirmedPOs ].
  7: { destruct (product_handlers_write rt env user "" body st) as [(_ & -> & Hq) _].
       split; [reflexivity|]. destruct Hq as [->| ->]; [reflexivity|].
       unfold upcoming. rewrite getNextSequence_other by discriminate. reflexivity. }
  7: { destruct (product_handlers_write rt env user id body st) as [_ (_ & -> & ->)].
       split; reflexivity. }
  all: case_handler; (split; [numbers_kept|reflexivity]).
Qed.

Lemma numbering_weaken (prefix : string) (n padding : Z) (numbers : list string) :
  Forall (fun s => exists k, 1 <= k < n /\ s = formatSequence prefix k padding) numbers ->
  Forall (fun s => exists k, 1 <= k < n + 1 /\ s = formatSequence prefix k padding) numbers.
Proof.
  apply Forall_impl. intros s [k [Hk Hs]]. exists k. split; [lia|exact Hs].
Qed.

Lemma purchaseNumbering_step (rt : Runtime) (env : Env) (r : Request) (st : Store) :
  purchaseNumbering st -> purchaseNumbering (snd (handle rt env r st)).
Proof.
  intros (prefix & n & padding & Hu & Hn & Hf & Hd).
  assert (Hcase : (forall user body, r <> PurchasePOST user body)
                  \/ exists user body, r = PurchasePOST user body).
  { destruct r; try (left; intros; discriminate). right. eauto. }
  destruct Hcase as [Hr|[user [body ->]]].
  - destruct (numbers_untouched rt env r st Hr) as [H1 H2].
    exists prefix, n, padding. rewrite H1, H2. auto.
  - simpl. unfold PurchaseOrders.POST.
    destruct (negb (authorizedAdmin rt user)); [exists prefix, n, padding; auto|].
    destruct (getNextSequence_step "purchase_order" prefix n padding _ Hu) as [G1 G2].
    destruct (getNextSequence "purchase_order" (sequences st)) as [orderNumber qs].
    cbn [fst snd] in G1, G2. subst orderNumber.
    exists prefix, (n + 1), padding.
    case_handler; simpl;
      (split; [exact G2|]); (split; [lia|]);
      try (split; [apply numbering_weaken; exact Hf|exact Hd]).
    rewrite map_app. simpl. split.
    + apply Forall_app. split; [apply numbering_weaken; exact Hf|].
      constructor; [|constructor]. exists n. split; [lia|reflexivity].
    + apply NoDup_app; [exact Hd|repeat constructor; simpl; tauto|].
      intros num Hnum [<-|[]].
      rewrite Forall_forall in Hf. destruct (Hf _ Hnum) as [k [Hk Hk']].
      apply formatSequence_inj in Hk'; lia.
Qed.

Lemma emptyStore_numbering : purchaseNumbering emptyStore.
Proof.
  exists "PURC", 1, 5. split; [reflexivity|]. split; [lia|].
  split; constructor.
Qed.

Lemma run_numbering (rt : Runtime) (rs : list (Env * Request)) (st : Store) :
  purchaseNumbering st -> purchaseNumbering (run rt rs st).
Proof.
  unfold run. revert st.
  induction rs as [|[env r] rest IH]; simpl; intros st Hst; [exact Hst|].
  apply IH. apply purchaseNumbering_step. exact Hst.
Qed.

(** X15.  In every store reached from the empty one the numbers of the
    purchase orders are different from one another, and each is the print
    of a number that the sequence [purchase_order] has passed; requests
    that fail and updates of any kind make no exception. *)
Theorem purchase_order_numbers_are_unique
  (rt : Runtime) (rs : list (Env * Request)) :
  purchaseNumbering (run rt rs emptyStore)
  /\ NoDup (map Order.orderNumber (purchaseOrders (run rt rs emptyStore))).
Proof.
  pose proof (run_numbering rt rs emptyStore emptyStore_numbering) as H.
  split; [exact H|].
  destruct H as (_ & _ & _ & _ & _ & _ & Hd). exact Hd.
Qed.



(** ** Repeated updates *)

















